(** * Emission calculation and projection engine (esg-reporting-backend)

    A shallow embedding of the calculation code of [emissions/models.py],
    [emissions/views.py] and [emissions/signals.py], and the properties of
    the specification that are stated about it.

    Numbers.  The Python code computes with three kinds of numbers:
    [int], [decimal.Decimal] (default context: 28 significant digits,
    ROUND_HALF_EVEN) and binary64 floats (Python [float], numpy arrays).
    Every finite value of the three kinds is a rational number, and every
    arithmetic operation of [Decimal] and of [float] returns the exact
    result rounded to the precision of its kind.  The embedding therefore
    represents every number by its exact rational value ([Q], or [Z] for an
    [int]) and is parameterised by the two rounding functions: [rd] for the
    decimal context and [rf] for binary64.  Instantiating both with the
    identity gives exact arithmetic; instantiating them with [decimal28] and
    [binary64] gives the values Python computes.  Not represented: the
    exponent of a [Decimal] (trailing zeros, visible only in [str]), signed
    zeros, and the special values (NaN, infinities, overflow and subnormal
    floats), none of which the modelled inputs reach. *)

From Stdlib Require Import String ZArith QArith Qfield List Bool Lia Permutation.
Import ListNotations.

Local Open Scope Z_scope.

(** ** Rounding to a given number of significant digits *)

Module Rounding.

(** Nearest integer to [n / d] for [d > 0], ties to the even integer. *)
Definition round_half_even (n d : Z) : Z :=
  let q := n / d in
  let r := n mod d in
  match 2 * r ?= d with
  | Lt => q
  | Gt => q + 1
  | Eq => if Z.even q then q else q + 1
  end.

(** Number of digits of [x > 0] in base [b]; [fuel] bounds the loop. *)
Fixpoint digits_aux (fuel : nat) (b x : Z) : Z :=
  match fuel with
  | O => 0
  | S fuel' => if x <=? 0 then 0 else 1 + digits_aux fuel' b (x / b)
  end.

Definition digits (b x : Z) : Z :=
  digits_aux (S (Z.to_nat (Z.log2 x))) b x.

(** [a * b^k >= d], for [k] of either sign. *)
Definition scaled_ge (b a d k : Z) : bool :=
  if 0 <=? k then d * b ^ k <=? a else d <=? a * b ^ (- k).

(** Largest [k] with [b^k <= a / d], for [a, d > 0]. *)
Definition ilog (b a d : Z) : Z :=
  let k := digits b a - digits b d in
  if scaled_ge b a d k then k else k - 1.

Definition pow_Q (b e : Z) : Q :=
  if 0 <=? e then inject_Z (b ^ e) else Qmake 1 (Z.to_pos (b ^ (- e))).

(** The rational closest to [q] that has at most [prec] significant
    digits in base [b], ties to even; the result is in lowest terms. *)
Definition round_sig (b prec : Z) (q : Q) : Q :=
  let n := Qnum q in
  let d := Zpos (Qden q) in
  if n =? 0 then 0%Q
  else
    let a := Z.abs n in
    let e := ilog b a d - (prec - 1) in
    let c := if 0 <=? e then round_half_even a (d * b ^ e)
             else round_half_even (a * b ^ (- e)) d in
    Qred (inject_Z (Z.sgn n * c) * pow_Q b e).

(** Python's default decimal context. *)
Definition decimal28 : Q -> Q := round_sig 10 28.

(** IEEE 754 binary64, round to nearest even, normal range. *)
Definition binary64 : Q -> Q := round_sig 2 53.

(** Exact arithmetic. *)
Definition exact : Q -> Q := fun q => q.

End Rounding.

(** ** Python values and exceptions *)

Module Py.

(** The exceptions the modelled code can raise. [NonFinite] stands for a
    numpy float operation whose result is an infinity or a NaN (numpy
    does not raise there, and such values are not represented here). *)
Inductive exn : Type :=
| TypeError
| IndexError
| DivisionByZero
| InvalidOperation
| ValidationError
| DoesNotExist
| NonFinite.

Inductive result (A : Type) : Type :=
| Ok (a : A)
| Raise (e : exn).

Arguments Ok {A} a.
Arguments Raise {A} e.

Definition bind {A B : Type} (r : result A) (k : A -> result B) : result B :=
  match r with
  | Ok a => k a
  | Raise e => Raise e
  end.

(** A [for] loop whose body may raise, threading the loop state. *)
Fixpoint for_each {S X : Type} (body : S -> X -> result S)
         (xs : list X) (st : S) : result S :=
  match xs with
  | [] => Ok st
  | x :: xs' => bind (body st x) (for_each body xs')
  end.

(** Truth value of an optional integer: [None] and [0] are false. *)
Definition truthy (x : option Z) : bool :=
  match x with
  | Some z => negb (z =? 0)
  | None => false
  end.

(** [range(start, stop)]. *)
Definition range (start stop : Z) : list Z :=
  map (fun i => start + Z.of_nat i) (seq 0 (Z.to_nat (stop - start))).

(** [d[k] = v] on a dict kept in insertion order. *)
Fixpoint dict_set {V : Type} (k : Z) (v : V) (d : list (Z * V)) : list (Z * V) :=
  match d with
  | [] => [(k, v)]
  | (k', v') :: d' =>
      if k' =? k then (k', v) :: d' else (k', v') :: dict_set k v d'
  end.

Fixpoint dict_get {V : Type} (k : Z) (d : list (Z * V)) : option V :=
  match d with
  | [] => None
  | (k', v') :: d' => if k' =? k then Some v' else dict_get k d'
  end.

(** [Decimal] arithmetic in a context that rounds with [rd]. *)
Section Decimal.
Variable rd : Q -> Q.

Definition dadd (a b : Q) : Q := rd (a + b).
Definition dsub (a b : Q) : Q := rd (a - b).
Definition dmul (a b : Q) : Q := rd (a * b).

Definition ddiv (a b : Q) : result Q :=
  if Qeq_bool b 0 then
    if Qeq_bool a 0 then Raise InvalidOperation else Raise DivisionByZero
  else Ok (rd (a / b)).
End Decimal.

End Py.

Import Py.

Declare Scope py_scope.
Notation "x <- c1 ;; c2" := (Py.bind c1 (fun x => c2))
  (at level 61, c1 at next level, right associativity) : py_scope.
Local Open Scope py_scope.

(** ** models.py: Source *)

Module Source.

(** A row of the [Source] table as loaded from the database: the
    [DecimalField]s are [Decimal]s, the integer fields are [int]s, and
    [year] is nullable.  [id] is the primary key and [report] the
    foreign key to the owning report. *)
Record t : Type := mk {
  id : Z;
  report : Z;
  emission_factor : Q;
  value : Q;
  quantity : Z;
  lifetime : Z;
  acquisition_year : Z;
  year : option Z
}.

Section Methods.
Variable rd : Q -> Q.

(** [Source.annual_emission] *)
Definition annual_emission (self : t) : Q :=
  dmul rd (dmul rd (emission_factor self) (value self))
          (inject_Z (quantity self)).

(** [self.year == y] for an integer [y]. *)
Definition year_is (self : t) (y : Z) : bool :=
  match year self with
  | Some p => p =? y
  | None => false
  end.

(** [Source.calculate_emission_for_year] *)
Definition calculate_emission_for_year (self : t) (y : Z) : Q :=
  if truthy (year self) && negb (year_is self y) then 0%Q
  else if (y <? acquisition_year self)
          || (acquisition_year self + lifetime self <=? y) then 0%Q
  else annual_emission self.
End Methods.

(** [Source.clean], the validation [Source.save] runs before it writes. *)
Definition clean (self : t) : result unit :=
  if Qle_bool (value self) 0 then Raise ValidationError
  else if quantity self <=? 0 then Raise ValidationError
  else if truthy (year self)
          && (match year self with
              | Some p => (p <? acquisition_year self)
                          || (acquisition_year self + lifetime self <=? p)
              | None => false
              end)
  then Raise ValidationError
  else Ok tt.

Section Totals.
Variable rd : Q -> Q.

(** [Source.total_emission]; [current_year] is [timezone.now().year]. *)
Definition total_emission (self : t) (current_year : Z) : Q :=
  let years_active :=
    Z.max 0 (Z.min (current_year - acquisition_year self + 1) (lifetime self)) in
  dmul rd (dmul rd (dmul rd (emission_factor self) (value self))
                   (inject_Z (quantity self)))
          (inject_Z years_active).
End Totals.

End Source.

(** ** models.py: Modification *)

Module Modification.

(** A row of the [Modification] table.  [source] is the foreign key to
    the source it modifies; the methods below take the row it refers to
    as the argument [src]. *)
Record t : Type := mk {
  source : Z;
  modification_type : string;
  value : Q;
  order : Z;
  start_year : Z;
  end_year : option Z;
  is_progressive : bool;
  target_value : option Q;
  calculation_year : Z
}.

Section Methods.
Variable rd : Q -> Q.

(** The progressive branch of [calculate_modified_emission] up to the
    local variable [current_value] (models.py, lines 293-296). *)
Definition current_value (self : t) (src : Source.t) : result Q :=
  match end_year self with
  | None => Raise TypeError
  | Some e =>
      let total_years := e - start_year self + 1 in
      let years_passed :=
        Z.min (calculation_year self - start_year self + 1) total_years in
      progress <- ddiv rd (inject_Z years_passed) (inject_Z total_years) ;;
      match target_value self with
      | None => Raise TypeError
      | Some target =>
          Ok (dadd rd (Source.value src)
                (dmul rd (dsub rd target (Source.value src)) progress))
      end
  end.

(** [Modification.calculate_modified_emission]; [base_emission = None]
    is the default argument. *)
Definition calculate_modified_emission
           (self : t) (src : Source.t) (base_emission : option Q) : result Q :=
  let base_emission :=
    match base_emission with
    | None => Source.calculate_emission_for_year rd src (calculation_year self)
    | Some b => b
    end in
  if String.eqb (modification_type self) "VALUE"%string then
    if is_progressive self then
      cv <- current_value self src ;;
      ratio <- ddiv rd cv (Source.value src) ;;
      Ok (dmul rd base_emission ratio)
    else Ok (dmul rd base_emission (value self))
  else if String.eqb (modification_type self) "EF"%string then
    q <- ddiv rd base_emission (Source.emission_factor src) ;;
    Ok (dmul rd q (value self))
  else Raise ValidationError.
End Methods.

(** The modification [m] with another [modification_type]. *)
Definition with_type (ty : string) (m : Modification.t) : Modification.t :=
  Modification.mk (Modification.source m) ty (Modification.value m)
                  (Modification.order m) (Modification.start_year m)
                  (Modification.end_year m) (Modification.is_progressive m)
                  (Modification.target_value m) (Modification.calculation_year m).

(** The modification [m] evaluated for the year [y]. *)
Definition for_year (y : Z) (m : Modification.t) : Modification.t :=
  Modification.mk (Modification.source m) (Modification.modification_type m)
                  (Modification.value m) (Modification.order m)
                  (Modification.start_year m) (Modification.end_year m)
                  (Modification.is_progressive m) (Modification.target_value m) y.

(** A row of the table with its foreign key to the reduction strategy. *)
Record row : Type := mk_row {
  reduction_strategy : Z;
  fields : t
}.

(** [aggregate(models.Max('order'))['order__max']] over the rows with the
    strategy, source and start year of [self]; [None] when there is none. *)
Definition max_order (table : list row) (self : row) : option Z :=
  fold_left (fun acc r =>
               if (reduction_strategy r =? reduction_strategy self)
                  && (source (fields r) =? source (fields self))
                  && (start_year (fields r) =? start_year (fields self))
               then match acc with
                    | None => Some (order (fields r))
                    | Some o => Some (Z.max o (order (fields r)))
                    end
               else acc)
            table None.

(** [Modification.save] up to the call of [super().save()]: the order
    is set when it is not supplied ([not self.order]: the order 0 stands
    for an order that is [None] or 0, both falsy); the result is the row
    that is written. *)
Definition assign_order (table : list row) (self : row) : row :=
  if order (fields self) =? 0 then
    let last_order :=
      match max_order table self with
      | Some o => if o =? 0 then 0 else o
      | None => 0
      end in
    mk_row (reduction_strategy self)
           (mk (source (fields self)) (modification_type (fields self))
               (value (fields self)) (last_order + 1)
               (start_year (fields self)) (end_year (fields self))
               (is_progressive (fields self)) (target_value (fields self))
               (calculation_year (fields self)))
  else self.

(** An instance in memory: its fields and the attribute
    [_modified_emission], absent until it is set. *)
Record instance : Type := mk_instance {
  self_fields : t;
  _modified_emission : option Q
}.

Section Cached.
Variable rd : Q -> Q.

(** [Modification.get_modified_emission]; [src] is the row [self.source]
    refers to at the time of the call. *)
Definition get_modified_emission (self : instance) (src : Source.t)
  : result (instance * Q) :=
  match _modified_emission self with
  | Some v => Ok (self, v)
  | None =>
      v <- calculate_modified_emission rd (self_fields self) src None ;;
      Ok (mk_instance (self_fields self) (Some v), v)
  end.
End Cached.

End Modification.

(** ** views.py: the projection engine *)

Module Views.

Section Projection.
Variable rd : Q -> Q.

(** The test of views.py line 583: the modification covers [year]. *)
Definition covers (m : Modification.t) (year : Z) : bool :=
  (Modification.start_year m <=? year)
  && match Modification.end_year m with
     | None => true
     | Some e => year <=? e
     end.

(** The interpolated usage value of a progressive modification
    (views.py, lines 585-588). *)
Definition interpolated_value
           (source : Source.t) (m : Modification.t) (year : Z) : result Q :=
  match Modification.end_year m with
  | None => Raise TypeError
  | Some e =>
      let total_years := e - Modification.start_year m + 1 in
      let years_passed :=
        Z.min (year - Modification.start_year m + 1) total_years in
      progress <- ddiv rd (inject_Z years_passed) (inject_Z total_years) ;;
      match Modification.target_value m with
      | None => Raise InvalidOperation
      | Some target =>
          Ok (dadd rd (Source.value source)
                (dmul rd (dsub rd target (Source.value source)) progress))
      end
  end.

(** One iteration of the inner loop of [project_emissions] (lines
    583-592): the effect of one modification on the running
    [modified_value] in [year]. *)
Definition apply_to_value (source : Source.t) (year : Z)
           (modified_value : Q) (m : Modification.t) : result Q :=
  if covers m year then
    if Modification.is_progressive m then interpolated_value source m year
    else if year =? Modification.start_year m
         then Ok (dmul rd modified_value (Modification.value m))
         else Ok modified_value
  else Ok modified_value.

(** One iteration of the outer loop (lines 577-595).  The loop state is
    the [emissions] dict, keyed by the year ([str] is injective on
    integers), and the running [modified_value]. *)
Definition project_year (source : Source.t) (modifications : list Modification.t)
           (st : list (Z * Q) * Q) (year : Z) : result (list (Z * Q) * Q) :=
  let '(emissions, modified_value) := st in
  if (year <? Source.acquisition_year source)
     || (Source.acquisition_year source + Source.lifetime source <=? year)
  then Ok (dict_set year 0%Q emissions, modified_value)
  else
    modified_value <-
      for_each (apply_to_value source year) modifications modified_value ;;
    modified_emission <-
      ddiv rd (dmul rd (dmul rd (Source.emission_factor source) modified_value)
                       (inject_Z (Source.quantity source)))
              (inject_Z (Source.lifetime source)) ;;
    Ok (dict_set year modified_emission emissions, modified_value).

(** [project_emissions] *)
Definition project_emissions (source : Source.t)
           (modifications : list Modification.t)
           (start_year end_year : Z) : result (list (Z * Q)) :=
  let years := range start_year (end_year + 1) in
  st <- for_each (project_year source modifications) years
                 ([], Source.value source) ;;
  Ok (fst st).

(** The body of the response of [ProjectionViewSet.project_modifications]. *)
Record projection_response : Type := mk_response {
  projections : list (Z * Q);
  start_year : Z;
  end_year : Z;
  max_allowed_end_year : Z
}.

(** [ProjectionViewSet.project_modifications], steps 2 to 6, for a source
    and modifications already fetched (in [(start_year, order)] order);
    [requested_end_year] is [request.data.get('end_year')], an integer or
    absent. *)
Definition project_modifications (source : Source.t)
           (modifications : list Modification.t)
           (start_year : Z) (requested_end_year : option Z)
  : result projection_response :=
  let max_end_year := start_year + 50 in
  let end_year :=
    Z.min (if truthy requested_end_year
           then match requested_end_year with Some r => r | None => max_end_year end
           else max_end_year)
          max_end_year in
  projected_emissions <-
    project_emissions source modifications start_year end_year ;;
  Ok (mk_response projected_emissions start_year end_year max_end_year).

(** The chain the module-level [projected_total_emissions] applies to the
    emission of one source for one strategy (views.py, lines 614-616):
    [modifications] are the strategy's modifications of that source, in
    the model's default order. *)
Definition apply_strategy (source : Source.t) (year : Z)
           (modifications : list Modification.t) (emission : Q) : result Q :=
  for_each (fun emission m =>
              Modification.calculate_modified_emission rd m source (Some emission))
           (filter (fun m => Modification.start_year m <=? year) modifications)
           emission.

(** [projected_total_emissions] for a report given by its sources and,
    for each strategy, the function giving its modifications of a source. *)
Definition projected_total_emissions
           (sources : list Source.t)
           (reduction_strategies : list (Source.t -> list Modification.t))
           (year : Z) : result Q :=
  for_each (fun total_emissions source =>
              emission <-
                for_each (fun emission strategy =>
                            apply_strategy source year (strategy source) emission)
                         reduction_strategies
                         (Source.calculate_emission_for_year rd source year) ;;
              Ok (dadd rd total_emissions emission))
           sources 0%Q.

(** [calculate_emissions_for_years]; [start_year] and [end_year] are
    integers or [None], and [current_year] is [datetime.now().year].
    Both arguments are tested for their truth value (lines 629-630), so
    that the integer 0 is taken for an absent one.  The dict is built
    entry by entry in the order of the years. *)
Definition calculate_emissions_for_years (source : Source.t)
           (start_year end_year : option Z) (current_year : Z) : list (Z * Q) :=
  let start_year :=
    match start_year with
    | Some y => if truthy start_year then y else Source.acquisition_year source
    | None => Source.acquisition_year source
    end in
  let end_year :=
    match end_year with
    | Some y => if truthy end_year then y else current_year
    | None => current_year
    end in
  fold_left (fun d year =>
               dict_set year (Source.calculate_emission_for_year rd source year) d)
            (range start_year (end_year + 1)) [].

(** [calculate_source_emissions]; [current_year] is the year
    [source.total_emission] reads from the clock. *)
Definition calculate_source_emissions (source : Source.t) (year : Z)
           (current_year : Z) : result Q :=
  if (year <? Source.acquisition_year source)
     || (Source.acquisition_year source + Source.lifetime source <=? year)
  then Ok 0%Q
  else ddiv rd (Source.total_emission rd source current_year)
               (inject_Z (Source.lifetime source)).

End Projection.

(** *** The reduction aggregator *)

Section Reduction.
Variables rd rf : Q -> Q.

(** [xs[mask]] on a numpy array. *)
Fixpoint masked {A : Type} (xs : list A) (mask : list bool) : list A :=
  match xs, mask with
  | x :: xs', b :: mask' => if b then x :: masked xs' mask' else masked xs' mask'
  | _, _ => []
  end.

(** [xs[mask] = f(xs[mask])], elementwise. *)
Fixpoint update_masked (f : Q -> Q) (xs : list Q) (mask : list bool) : list Q :=
  match xs, mask with
  | x :: xs', b :: mask' => (if b then f x else x) :: update_masked f xs' mask'
  | _, _ => xs
  end.

(** [xs[mask][0]] *)
Definition first_masked (xs : list Q) (mask : list bool) : result Q :=
  match masked xs mask with
  | x :: _ => Ok x
  | [] => Raise IndexError
  end.

(** [a / b] where [a] is a numpy integer ([year] comes from
    [np.arange]) and [b] a Python integer: a numpy float division, which
    warns and does not raise when [b] is 0.  A positive [a] over 0 is
    [inf], for which [None] stands; 0 or a negative [a] over 0 is a NaN
    or [-inf], which are not represented. *)
Definition np_truediv (a b : Z) : result (option Q) :=
  if b =? 0 then
    if 0 <? a then Ok None else Raise NonFinite
  else Ok (Some (rf (inject_Z a / inject_Z b))).

(** [min(ratio, 1)]: [ratio] unless 1 is less than it. *)
Definition min_1 (ratio : option Q) : Q :=
  match ratio with
  | Some r => if Qle_bool r 1 then r else 1%Q
  | None => 1%Q
  end.

(** The numpy arrays built from the sources of a report (lines 657-661). *)
Definition emission_factors (sources : list Source.t) : list Q :=
  map (fun s => rf (Source.emission_factor s)) sources.
Definition values (sources : list Source.t) : list Q :=
  map (fun s => rf (Source.value s)) sources.
Definition quantities (sources : list Source.t) : list Q :=
  map (fun s => rf (inject_Z (Source.quantity s))) sources.

(** The entry of [active_mask] (line 664) for the source [s]. *)
Definition active (s : Source.t) (year : Z) : bool :=
  (Source.acquisition_year s <=? year)
  && (year <? Source.acquisition_year s + Source.lifetime s).

(** [original_emissions] (line 665): [np.where(active_mask, ..., 0)],
    entry by entry. *)
Definition original_emissions (sources : list Source.t) (year : Z) : list Q :=
  map (fun s =>
         if active s year
         then rf (rf (rf (Source.emission_factor s) * rf (Source.value s))
                  * rf (inject_Z (Source.quantity s)))
         else 0%Q)
      sources.

(** [mod_mask] (line 670): [active_mask & (mod.source.id == ids)], entry
    by entry. *)
Definition mod_mask (sources : list Source.t) (year : Z) (m : Modification.t)
  : list bool :=
  map (fun s => active s year && (Modification.source m =? Source.id s))
      sources.

(** The value the progressive branch stores (lines 672-674). *)
Definition progressive_emission (sources : list Source.t) (year : Z)
           (m : Modification.t) : result Q :=
  let mask := mod_mask sources year m in
  match Modification.end_year m with
  | None => Raise TypeError
  | Some e =>
      ratio <- np_truediv (year - Modification.start_year m + 1)
                          (e - Modification.start_year m + 1) ;;
      let progress := min_1 ratio in
      v <- first_masked (values sources) mask ;;
      match Modification.target_value m with
      | None => Raise TypeError
      | Some target =>
          let current_value := dadd rd v (dmul rd (dsub rd target v) progress) in
          ef <- first_masked (emission_factors sources) mask ;;
          q <- first_masked (quantities sources) mask ;;
          Ok (rf (dmul rd (dmul rd ef current_value) q))
      end
  end.

(** One iteration of the loop over the modifications (lines 670-678). *)
Definition apply_to_emissions (sources : list Source.t) (year : Z)
           (modified_emissions : list Q) (m : Modification.t)
  : result (list Q) :=
  let mask := mod_mask sources year m in
  if Modification.is_progressive m then
    x <- progressive_emission sources year m ;;
    Ok (update_masked (fun _ => x) modified_emissions mask)
  else if String.eqb (Modification.modification_type m) "VALUE"%string then
    Ok (update_masked (fun x => rf (x * rf (Modification.value m)))
                      modified_emissions mask)
  else if String.eqb (Modification.modification_type m) "EF"%string then
    if existsb (fun ef => Qeq_bool ef 0) (masked (emission_factors sources) mask)
    then Raise NonFinite
    else
      Ok (map (fun '(x, (ef, b)) =>
                 if (b : bool) then rf (x * rf (rf (Modification.value m) / ef))
                 else x)
              (combine modified_emissions
                       (combine (emission_factors sources) mask)))
  else Ok modified_emissions.

(** The body of the loop over the years of [calculate_total_reduction]
    for one report (lines 664-678): the arrays [original_emissions] and
    [modified_emissions] of [year].  [sources] are the sources of the
    report and [modifications] the modifications of the strategy, in the
    model's default order. *)
Definition calculate_total_reduction_year
           (sources : list Source.t) (modifications : list Modification.t)
           (year : Z) : result (list Q * list Q) :=
  let original := original_emissions sources year in
  modified <-
    for_each (apply_to_emissions sources year)
             (filter (fun m =>
                        (Modification.start_year m <=? year)
                        && existsb (fun s => Modification.source m =? Source.id s)
                                   sources)
                     modifications)
             original ;;
  Ok (original, modified).

End Reduction.

End Views.

(** ** models.py: Report, and signals.py *)

Module Report.

(** A [Report], as a row of the table and as an object in memory: the
    primary key and [total_emissions_cache].  In a row it is the nullable
    [FloatField] that caches the total; in an object it is the attribute,
    which holds what was loaded from the column or assigned since. *)
Record t : Type := mk {
  id : Z;
  total_emissions_cache : option Q
}.

(** The database: the rows of the two tables. *)
Record db : Type := mk_db {
  sources : list Source.t;
  reports : list t
}.

(** [self.sources.all()] *)
Definition sources_of (d : db) (report_id : Z) : list Source.t :=
  filter (fun s => Source.report s =? report_id) (sources d).

(** [aggregate(total=Sum(...))['total']]: the database adds the expression
    over the rows, exactly; the aggregate of no row is [None]. *)
Definition Sum (f : Source.t -> Q) (rows : list Source.t) : option Q :=
  match rows with
  | [] => None
  | _ => Some (fold_left (fun acc s => (acc + f s)%Q) rows 0%Q)
  end.

(** [total or Decimal('0.00')] *)
Definition or_zero (total : option Q) : Q :=
  match total with
  | Some x => if Qeq_bool x 0 then 0%Q else x
  | None => 0%Q
  end.

(** [Report.total_emissions]; [now] is the year of the database's
    [Now()].  The expressions are evaluated by the database, in exact
    arithmetic; a [None] or zero total becomes [Decimal('0.00')]. *)
Definition total_emissions (d : db) (report_id : Z) (now : Z)
           (year : option Z) : Q :=
  let rows := sources_of d report_id in
  match year with
  | None =>
      or_zero (Sum (fun s =>
             Source.emission_factor s * Source.value s
             * inject_Z (Source.quantity s)
             * inject_Z (Z.min (Source.lifetime s)
                               (now - Source.acquisition_year s + 1)))%Q
          rows)
  | Some y =>
      or_zero (Sum (fun s =>
             Source.emission_factor s * Source.value s
             * inject_Z (Source.quantity s))%Q
          (filter (fun s => (Source.acquisition_year s <=? y)
                            && (y - Source.lifetime s <? Source.acquisition_year s))
                  rows))
  end.

Section Cache.
Variable rf : Q -> Q.

(** [Report.objects.get(pk=report_id)], as the access [instance.report]
    of a source performs it: the object holds the float of the column. *)
Definition get (d : db) (report_id : Z) : result t :=
  match find (fun r => id r =? report_id) (reports d) with
  | Some r => Ok r
  | None => Raise DoesNotExist
  end.

(** [Model.save] of a report object: the row with its primary key is
    updated, or inserted when there is none, and the [FloatField] column
    stores the float of the attribute. *)
Definition save (d : db) (self : t) : db :=
  let row := mk (id self) (option_map rf (total_emissions_cache self)) in
  mk_db (sources d)
        (if existsb (fun r => id r =? id self) (reports d)
         then map (fun r => if id r =? id self then row else r) (reports d)
         else reports d ++ [row]).

(** [Report.update_total_emissions] on the object [self]: the attribute
    is set to the [Decimal] total and the object is saved.  The result is
    the database and the object afterwards. *)
Definition update_total_emissions (d : db) (self : t) (now : Z) : db * t :=
  let self := mk (id self) (Some (total_emissions d (id self) now None)) in
  (save d self, self).

(** The cached value of a report's row. *)
Definition cached (d : db) (report_id : Z) : option Q :=
  match find (fun r => id r =? report_id) (reports d) with
  | Some r => total_emissions_cache r
  | None => None
  end.

(** [Report.get_total_emissions] on the object [self]: the total is
    computed and stored only when the attribute is [None], and the value
    returned is the attribute.  The result is the database, the object
    afterwards and the value. *)
Definition get_total_emissions (d : db) (self : t) (now : Z)
  : db * t * option Q :=
  match total_emissions_cache self with
  | None =>
      let '(d', self') := update_total_emissions d self now in
      (d', self', total_emissions_cache self')
  | Some _ => (d, self, total_emissions_cache self)
  end.

(** signals.py: the body of the handlers [update_report_emissions] and
    [update_report_emissions_on_delete],
    [instance.report.update_total_emissions()]. *)
Definition update_report_emissions (d : db) (instance : Source.t) (now : Z)
  : result db :=
  report <- get d (Source.report instance) ;;
  Ok (fst (update_total_emissions d report now)).

(** [Model.clean_fields] and [Model.validate_unique] of Django, which
    [full_clean] runs on the declared fields of the instance against the
    stored rows (ranges, digits, choices, uniqueness, existence of the
    report).  Django is not part of the repository: its checks are a
    parameter. *)
Variable valid : db -> Source.t -> bool.

(** [Source.full_clean]: the checks of the fields and [Source.clean];
    every failure is a [ValidationError]. *)
Definition full_clean (d : db) (instance : Source.t) : result unit :=
  if valid d instance then Source.clean instance else Raise ValidationError.

(** [Source.save]: [full_clean], then the row is inserted, or updated
    when a row with its primary key exists, then the [post_save] handler
    of signals.py runs. *)
Definition save_source (d : db) (instance : Source.t) (now : Z) : result db :=
  _ <- full_clean d instance ;;
  let rows :=
    if existsb (fun s => Source.id s =? Source.id instance) (sources d)
    then map (fun s => if Source.id s =? Source.id instance then instance else s)
             (sources d)
    else sources d ++ [instance] in
  update_report_emissions (mk_db rows (reports d)) instance now.

(** [Source.delete]: the row is deleted, then the [post_delete] handler
    of signals.py runs. *)
Definition delete_source (d : db) (instance : Source.t) (now : Z) : result db :=
  let rows :=
    filter (fun s => negb (Source.id s =? Source.id instance)) (sources d) in
  update_report_emissions (mk_db rows (reports d)) instance now.

End Cache.

(** The dict [Report.compare_emissions] returns. *)
Record comparison : Type := mk_comparison {
  year1 : Z;
  year2 : Z;
  emissions1 : Q;
  emissions2 : Q;
  difference : Q;
  percentage_change : Q
}.

Section Compare.
Variable rd : Q -> Q.

(** [Report.compare_emissions]: the two totals come from the database,
    the difference and the percentage are computed with [Decimal]s. *)
Definition compare_emissions (d : db) (report_id : Z) (now : Z) (y1 y2 : Z)
  : result comparison :=
  let e1 := total_emissions d report_id now (Some y1) in
  let e2 := total_emissions d report_id now (Some y2) in
  let diff := dsub rd e2 e1 in
  pct <- (if Qeq_bool e1 0 then Ok 0%Q
          else (q <- ddiv rd diff e1 ;; Ok (dmul rd q 100))) ;;
  Ok (mk_comparison y1 y2 e1 e2 diff pct).
End Compare.

End Report.

(** ** The projection as the specification words it *)

Module Spec.

Section Projection.
Variable rd : Q -> Q.

(** The source is inside its lifetime window in [year]. *)
Definition in_lifetime (source : Source.t) (year : Z) : bool :=
  (Source.acquisition_year source <=? year)
  && (year <? Source.acquisition_year source + Source.lifetime source).

(** [current_value = source.value + (target_value - source.value) * progress]
    with [progress = years_passed / total_years]; a progressive
    modification has its [end_year] and [target_value]. *)
Definition interpolated (source : Source.t) (m : Modification.t) (year : Z) : Q :=
  match Modification.end_year m, Modification.target_value m with
  | Some e, Some target =>
      let total_years := e - Modification.start_year m + 1 in
      let years_passed :=
        Z.min (year - Modification.start_year m + 1) total_years in
      let progress := rd (inject_Z years_passed / inject_Z total_years) in
      rd (Source.value source + rd (rd (target - Source.value source) * progress))
  | _, _ => Source.value source
  end.

(** What one modification does to the running value in [year]: inside
    its window a progressive modification overwrites it, and a
    non-progressive one multiplies it on its [start_year] only. *)
Definition step (source : Source.t) (year : Z) (running : Q)
           (m : Modification.t) : Q :=
  if Views.covers m year then
    if Modification.is_progressive m then interpolated source m year
    else if year =? Modification.start_year m
         then rd (running * Modification.value m)
         else running
  else running.

(** The running [modified_value] after the first [n] years of a
    projection that starts in [start_year]: the value is carried from
    year to year and changes only in the years of the lifetime window. *)
Fixpoint modified_value (source : Source.t) (modifications : list Modification.t)
         (start_year : Z) (n : nat) : Q :=
  match n with
  | O => Source.value source
  | S k =>
      let year := start_year + Z.of_nat k in
      let before := modified_value source modifications start_year k in
      if in_lifetime source year
      then fold_left (step source year) modifications before
      else before
  end.

(** The emission of the year [start_year + k]:
    [emission_factor * modified_value * quantity / lifetime] inside the
    lifetime window and [0] outside. *)
Definition emission (source : Source.t) (modifications : list Modification.t)
           (start_year : Z) (k : nat) : Q :=
  if in_lifetime source (start_year + Z.of_nat k) then
    rd (rd (rd (Source.emission_factor source
                * modified_value source modifications start_year (S k))
            * inject_Z (Source.quantity source))
        / inject_Z (Source.lifetime source))
  else 0%Q.

Definition project (source : Source.t) (modifications : list Modification.t)
           (start_year end_year : Z) : list (Z * Q) :=
  map (fun k => (start_year + Z.of_nat k,
                 emission source modifications start_year k))
      (seq 0 (Z.to_nat (end_year + 1 - start_year))).

End Projection.

(** The invariant of the data model: a progressive modification has an
    [end_year] and a [target_value]. *)
Definition well_formed (m : Modification.t) : Prop :=
  Modification.is_progressive m = true ->
  Modification.end_year m <> None /\ Modification.target_value m <> None.

(** The year in which a non-progressive modification takes effect is
    among the first [n] years of the projection, inside the lifetime
    window of the source and inside the modification's own window. *)
Definition takes_effect (source : Source.t) (m : Modification.t) (start_year : Z) (n : nat) : bool :=
  (start_year <=? Modification.start_year m)
  && (Modification.start_year m <? start_year + Z.of_nat n)
  && Spec.in_lifetime source (Modification.start_year m)
  && Views.covers m (Modification.start_year m).

(** The proportion of the window that has passed in the year [y], the
    first year counting as passed. *)
Definition progress_of (m : Modification.t) (e y : Z) : Q :=
  inject_Z (y - Modification.start_year m + 1)
  / inject_Z (e - Modification.start_year m + 1).

(** The sum of [calculate_emission_for_year] over the rows, in exact
    arithmetic. *)
Definition sum_of_emissions (y : Z) (rows : list Source.t) : Q :=
  fold_left (fun acc s =>
               (acc + Source.calculate_emission_for_year Rounding.exact s y)%Q)
            rows 0%Q.

(** No row is pinned to a year other than [y]. *)
Definition unpinned (y : Z) (s : Source.t) : Prop :=
  Source.year s = None \/ Source.year s = Some y.

End Spec.

(** ** The inputs of the scenarios of the specification and of the tests *)

Module Scenario.

(** Source(ef=0.1, value=1000, qty=1, lifetime=5, acq=2023) *)
Definition source : Source.t :=
  Source.mk 1 1 (1 # 10) 1000 1 5 2023 None.

(** Modification(VALUE, value=0.9, start_year=2024), not progressive. *)
Definition reduction : Modification.t :=
  Modification.mk 1 "VALUE" (9 # 10) 1 2024 None false None 2024.

(** The same modification with type EF. *)
Definition ef_reduction : Modification.t :=
  Modification.mk 1 "EF" (9 # 10) 1 2024 None false None 2024.

(** Progressive Modification(VALUE, start_year=2024, end_year=2026,
    target_value=2000), evaluated for [calculation_year]. *)
Definition progressive (calculation_year : Z) : Modification.t :=
  Modification.mk 1 "VALUE" 1 1 2024 (Some 2026) true (Some 2000%Q)
                  calculation_year.

(** The source pinned to the year 2023. *)
Definition pinned_source : Source.t :=
  Source.mk 1 1 (1 # 10) 1000 1 5 2023 (Some 2023).

(** The source with its [year] column set to 0. *)
Definition year_zero_source : Source.t :=
  Source.mk 1 1 (1 # 10) 1000 1 5 2023 (Some 0).

(** A source acquired in the year 0 for 5 years and pinned to the year
    0, which is inside its lifetime. *)
Definition year_zero_origin_source : Source.t :=
  Source.mk 1 1 (1 # 10) 1000 1 5 0 (Some 0).

(** Modification(VALUE, value=0.9, start_year=2024, end_year=2026), not
    progressive, evaluated for [calculation_year]. *)
Definition bounded_reduction (calculation_year : Z) : Modification.t :=
  Modification.mk 1 "VALUE" (9 # 10) 1 2024 (Some 2026) false None
                  calculation_year.

(** A progressive modification without [end_year]. *)
Definition open_progressive : Modification.t :=
  Modification.mk 1 "VALUE" 1 1 2024 None true (Some 2000%Q) 2024.

(** Progressive Modification(VALUE, start_year=2024, end_year=2030,
    target_value=2000), evaluated for [calculation_year]. *)
Definition long_progressive (calculation_year : Z) : Modification.t :=
  Modification.mk 1 "VALUE" 1 1 2024 (Some 2030) true (Some 2000%Q)
                  calculation_year.

(** A database with the pinned source in report 1, and an empty report 2. *)
Definition pinned_db : Report.db :=
  Report.mk_db [Scenario.pinned_source] [Report.mk 1 None; Report.mk 2 None].

(** A database with two reports and no source. *)
Definition empty_db : Report.db :=
  Report.mk_db [] [Report.mk 1 None; Report.mk 2 None].

(** The source of the scenario moved to report 2. *)
Definition moved_source : Source.t :=
  Source.mk 1 2 (1 # 10) 1000 1 5 2023 None.

(** Source(ef=0.1, value=1, qty=1, lifetime=5, acq=2023) in report 1. *)
Definition small_source : Source.t :=
  Source.mk 2 1 (1 # 10) 1 1 5 2023 None.


(** The checks of [full_clean] on the modelled columns: the four
    [PositiveIntegerField]s are not negative and the report exists. *)
Definition field_checks (d : Report.db) (s : Source.t) : bool :=
  (0 <=? Source.quantity s) && (0 <=? Source.lifetime s)
  && (0 <=? Source.acquisition_year s)
  && match Source.year s with Some y => 0 <=? y | None => true end
  && existsb (fun r => Report.id r =? Source.report s) (Report.reports d).

End Scenario.

(** ** Notions used to state further properties of the code *)

Module Derived.

(** The first year of [calculate_emissions_for_years]: [start_year]
    when it is given and not 0, the acquisition year otherwise. *)
Definition first_year (source : Source.t) (start_year : option Z) : Z :=
  match start_year with
  | Some 0 | None => Source.acquisition_year source
  | Some y => y
  end.

(** Its last year: [end_year] when it is given and not 0, the current
    year otherwise. *)
Definition last_year (end_year : option Z) (current_year : Z) : Z :=
  match end_year with
  | Some 0 | None => current_year
  | Some y => y
  end.

(** The sum of the values of a dict. *)
Definition sum_values (d : list (Z * Q)) : Q :=
  fold_left (fun acc kv => (acc + snd kv)%Q) d 0%Q.

(** The sum of [Source.total_emission] over the rows, in exact
    arithmetic. *)
Definition sum_of_totals (now : Z) (rows : list Source.t) : Q :=
  fold_left (fun acc s => (acc + Source.total_emission Rounding.exact s now)%Q)
            rows 0%Q.

(** The source was acquired by the year after [now] and its lifetime is
    not negative. *)
Definition acquired_by (now : Z) (s : Source.t) : Prop :=
  Source.acquisition_year s <= now + 1 /\ 0 <= Source.lifetime s.

(** [Source.objects.get(id=id)]: the row of the table with the primary
    key [id]. *)
Definition get_source (d : Report.db) (id : Z) : option Source.t :=
  find (fun s => Source.id s =? id) (Report.sources d).

(** The rows [r] and [self] have the same strategy, source and start
    year. *)
Definition same_group (r self : Modification.row) : bool :=
  (Modification.reduction_strategy r =? Modification.reduction_strategy self)
  && (Modification.source (Modification.fields r)
      =? Modification.source (Modification.fields self))
  && (Modification.start_year (Modification.fields r)
      =? Modification.start_year (Modification.fields self)).

(** The columns of the [unique_together] constraint. *)
Definition unique_key (r : Modification.row) : Z * Z * Z * Z :=
  (Modification.reduction_strategy r,
   Modification.source (Modification.fields r),
   Modification.start_year (Modification.fields r),
   Modification.order (Modification.fields r)).

(** One step of the aggregate [Max('order')]. *)
Definition max_step (self : Modification.row) (acc : option Z)
           (r : Modification.row) : option Z :=
  if same_group r self
  then match acc with
       | None => Some (Modification.order (Modification.fields r))
       | Some o => Some (Z.max o (Modification.order (Modification.fields r)))
       end
  else acc.

(** A non-progressive modification of type VALUE. *)
Definition plain_value (m : Modification.t) : Prop :=
  Modification.modification_type m = "VALUE"%string
  /\ Modification.is_progressive m = false.

(** The product of the values of the modifications that have started
    by [year]. *)
Definition started_product (year : Z) (modifications : list Modification.t) : Q :=
  fold_right (fun m acc =>
                if Modification.start_year m <=? year
                then (Modification.value m * acc)%Q else acc)
             1%Q modifications.

(** The modification [m] does not reach the source [s] in [year]: the
    source is not active or is not the source of [m]. *)
Definition unreached (year : Z) (m : Modification.t) (s : Source.t) : Prop :=
  Views.active s year = false \/ Modification.source m <> Source.id s.

End Derived.

(** * Properties *)

(** ** The two roundings on known values *)

Example decimal28_third :
  Rounding.decimal28 (1 # 3) = 0.3333333333333333333333333333%Q.
Proof. vm_compute. reflexivity. Qed.

Example decimal28_two_thirds :
  Rounding.decimal28 (2 # 3) = 0.6666666666666666666666666667%Q.
Proof. vm_compute. reflexivity. Qed.

Example decimal28_exact_on_short_decimals :
  Rounding.decimal28 (123456789 # 1000) = (123456789 # 1000)%Q.
Proof. vm_compute. reflexivity. Qed.

(** [float(Decimal('0.1'))] is [3602879701896397 / 2^55]. *)
Example binary64_tenth :
  Rounding.binary64 (1 # 10) = (3602879701896397 # 36028797018963968)%Q.
Proof. vm_compute. reflexivity. Qed.

(** Ties go to the even neighbour: [2^53 + 1] is rounded to [2^53]. *)
Example binary64_tie :
  Rounding.binary64 (9007199254740993 # 1) = (9007199254740992 # 1)%Q
  /\ Rounding.binary64 (9007199254740995 # 1) = (9007199254740996 # 1)%Q.
Proof. split; vm_compute; reflexivity. Qed.

(** ** Loops and dicts *)

Lemma for_each_app {S X : Type} (body : S -> X -> result S) (xs ys : list X) (st : S) :
  for_each body (xs ++ ys) st = bind (for_each body xs st) (for_each body ys).
Proof.
  revert st. induction xs as [|x xs IH]; intros st; simpl.
  - reflexivity.
  - destruct (body st x) as [st'|e]; simpl; [apply IH | reflexivity].
Qed.

Lemma for_each_total {S X : Type} (body : S -> X -> result S) (f : S -> X -> S)
      (xs : list X) :
  (forall st x, In x xs -> body st x = Ok (f st x)) ->
  forall st, for_each body xs st = Ok (fold_left f xs st).
Proof.
  induction xs as [|x xs IH]; intros H st; simpl.
  - reflexivity.
  - rewrite H by (left; reflexivity). simpl. apply IH.
    intros st' y Hy. apply H. right; exact Hy.
Qed.

Lemma dict_set_fresh {V : Type} (k : Z) (v : V) (d : list (Z * V)) :
  (forall k', In k' (map fst d) -> k' <> k) ->
  dict_set k v d = d ++ [(k, v)].
Proof.
  induction d as [|[k' v'] d IH]; intros H; simpl.
  - reflexivity.
  - destruct (Z.eqb_spec k' k) as [E|_].
    + exfalso. apply (H k'); [left; reflexivity | exact E].
    + f_equal. apply IH. intros k'' Hk. apply H. right; exact Hk.
Qed.

Lemma inject_Z_nonzero (z : Z) : z <> 0 -> Qeq_bool (inject_Z z) 0 = false.
Proof.
  intros H. destruct (Qeq_bool (inject_Z z) 0) eqn:E; [|reflexivity].
  apply Qeq_bool_eq in E. unfold Qeq in E; simpl in E. lia.
Qed.

(** Case analysis on every comparison of years in the goal; the cases
    that contradict the hypotheses are closed. *)
Ltac compare_years :=
  repeat match goal with
         | |- context [?a <=? ?b] => destruct (Z.leb_spec a b)
         | |- context [?a <? ?b] => destruct (Z.ltb_spec a b)
         end;
  cbn [andb orb negb]; try lia.

Section ProjectionRefinement.
Variable rd : Q -> Q.
Variable source : Source.t.

Lemma apply_to_value_step (year : Z) (running : Q) (m : Modification.t) :
  Spec.well_formed m ->
  Views.apply_to_value rd source year running m = Ok (Spec.step rd source year running m).
Proof.
  intros Hwf. unfold Views.apply_to_value, Spec.step.
  destruct (Views.covers m year) eqn:Hc; [|reflexivity].
  destruct (Modification.is_progressive m) eqn:Hp.
  - destruct (Hwf Hp) as [He Ht].
    unfold Views.interpolated_value, Spec.interpolated.
    destruct (Modification.end_year m) as [e|] eqn:Ee; [|congruence].
    destruct (Modification.target_value m) as [t|] eqn:Et; [|congruence].
    unfold Views.covers in Hc. rewrite Ee in Hc.
    apply andb_true_iff in Hc. destruct Hc as [H1 H2].
    apply Z.leb_le in H1. apply Z.leb_le in H2.
    unfold ddiv. rewrite inject_Z_nonzero by lia. simpl.
    reflexivity.
  - destruct (year =? Modification.start_year m); reflexivity.
Qed.

Lemma project_year_spec (modifications : list Modification.t)
      (emissions : list (Z * Q)) (running : Q) (year : Z) :
  Forall Spec.well_formed modifications ->
  Views.project_year rd source modifications (emissions, running) year =
  Ok (dict_set year
        (if Spec.in_lifetime source year then
           rd (rd (rd (Source.emission_factor source
                       * fold_left (Spec.step rd source year) modifications running)
                   * inject_Z (Source.quantity source))
               / inject_Z (Source.lifetime source))
         else 0%Q)
        emissions,
      if Spec.in_lifetime source year
      then fold_left (Spec.step rd source year) modifications running
      else running).
Proof.
  intros Hwf. unfold Views.project_year, Spec.in_lifetime.
  compare_years; try reflexivity.
  rewrite (for_each_total _ (Spec.step rd source year)).
  - cbn [bind]. unfold ddiv. rewrite inject_Z_nonzero by lia. reflexivity.
  - intros st m Hm. apply apply_to_value_step.
    rewrite Forall_forall in Hwf. apply Hwf; exact Hm.
Qed.

Lemma project_loop_spec (modifications : list Modification.t) (start_year : Z) (n : nat) :
  Forall Spec.well_formed modifications ->
  for_each (Views.project_year rd source modifications)
           (map (fun i => start_year + Z.of_nat i) (seq 0 n))
           ([], Source.value source) =
  Ok (map (fun k => (start_year + Z.of_nat k,
                     Spec.emission rd source modifications start_year k))
          (seq 0 n),
      Spec.modified_value rd source modifications start_year n).
Proof.
  intros Hwf. induction n as [|n IH].
  - reflexivity.
  - rewrite seq_S, !map_app, for_each_app, IH.
    cbn [bind map for_each Nat.add].
    rewrite project_year_spec by exact Hwf.
    cbn [bind]. rewrite dict_set_fresh.
    + unfold Spec.emission. cbn [Spec.modified_value Nat.add].
      destruct (Spec.in_lifetime source (start_year + Z.of_nat n)); reflexivity.
    + intros k' Hk. rewrite map_map in Hk. simpl in Hk.
      apply in_map_iff in Hk. destruct Hk as [i [Hi Hin]].
      apply in_seq in Hin. lia.
Qed.

Lemma project_emissions_refines (modifications : list Modification.t)
      (start_year end_year : Z) :
  Forall Spec.well_formed modifications ->
  Views.project_emissions rd source modifications start_year end_year =
  Ok (Spec.project rd source modifications start_year end_year).
Proof.
  intros Hwf. unfold Views.project_emissions, Spec.project, range.
  rewrite project_loop_spec by exact Hwf. reflexivity.
Qed.

End ProjectionRefinement.

(** ** The running value of the projection (C3) *)

Section RunningValue.
Variable rd : Q -> Q.
Variable source : Source.t.

Lemma modified_value_one_shot (m : Modification.t) (start_year : Z) (n : nat) :
  Modification.is_progressive m = false ->
  Spec.modified_value rd source [m] start_year n =
  if Spec.takes_effect source m start_year n
  then rd (Source.value source * Modification.value m)%Q
  else Source.value source.
Proof.
  intros Hp. induction n as [|n IH].
  - simpl. unfold Spec.takes_effect.
    destruct (Z.leb_spec start_year (Modification.start_year m));
      destruct (Z.ltb_spec (Modification.start_year m) (start_year + Z.of_nat 0));
      simpl; try reflexivity; lia.
  - cbn [Spec.modified_value]. rewrite IH. clear IH.
    cbn [fold_left]. unfold Spec.step, Spec.takes_effect. rewrite Hp.
    destruct (Z.eqb_spec (start_year + Z.of_nat n) (Modification.start_year m)) as [E|E].
    + rewrite <- E.
      destruct (Z.leb_spec start_year (start_year + Z.of_nat n)); [|lia].
      destruct (Z.ltb_spec (start_year + Z.of_nat n) (start_year + Z.of_nat n)); [lia|].
      destruct (Z.ltb_spec (start_year + Z.of_nat n) (start_year + Z.of_nat (S n))); [|lia].
      simpl.
      destruct (Spec.in_lifetime source (start_year + Z.of_nat n));
        destruct (Views.covers m (start_year + Z.of_nat n)); reflexivity.
    + assert (Hlt : (Modification.start_year m <? start_year + Z.of_nat (S n))
                    = (Modification.start_year m <? start_year + Z.of_nat n)).
      { destruct (Z.ltb_spec (Modification.start_year m) (start_year + Z.of_nat (S n)));
          destruct (Z.ltb_spec (Modification.start_year m) (start_year + Z.of_nat n));
          try reflexivity; lia. }
      rewrite Hlt.
      destruct (Spec.in_lifetime source (start_year + Z.of_nat n));
        destruct (Views.covers m (start_year + Z.of_nat n)); reflexivity.
Qed.

End RunningValue.

(** C3. [project_emissions] computes the projection the specification
    describes: for well-formed modifications it returns, for every year
    of the range, [emission_factor * modified_value * quantity / lifetime]
    inside the lifetime window (and 0 outside), where [modified_value] is
    the running value of [Spec.modified_value]: progressive modifications
    overwrite it with the interpolated usage value and a non-progressive
    modification multiplies it once, in the year equal to its
    [start_year], the product being carried to the later years.  In
    Python's decimal arithmetic the scenario of the specification yields
    20, 18, 18, 18, 18 and 0 for the years 2023 to 2028. *)
Theorem project_emissions_running_value
        (rd : Q -> Q) (source : Source.t) (modifications : list Modification.t)
        (m : Modification.t) (start_year end_year : Z) (n : nat) :
  (Forall Spec.well_formed modifications ->
   Views.project_emissions rd source modifications start_year end_year =
   Ok (Spec.project rd source modifications start_year end_year))
  /\ (Modification.is_progressive m = false ->
      Spec.modified_value rd source [m] start_year n =
      (if Spec.takes_effect source m start_year n
       then rd (Source.value source * Modification.value m)%Q
       else Source.value source)
      /\ Views.project_emissions rd source [m] start_year end_year =
         Ok (map (fun k =>
                    (start_year + Z.of_nat k,
                     if Spec.in_lifetime source (start_year + Z.of_nat k)
                     then rd (rd (rd (Source.emission_factor source
                                      * (if Spec.takes_effect source m start_year (S k)
                                         then rd (Source.value source
                                                  * Modification.value m)
                                         else Source.value source))
                                  * inject_Z (Source.quantity source))
                              / inject_Z (Source.lifetime source))%Q
                     else 0%Q))
                 (seq 0 (Z.to_nat (end_year + 1 - start_year)))))
  /\ Views.project_emissions Rounding.decimal28 Scenario.source
                             [Scenario.reduction] 2023 2028 =
     Ok [(2023, 20%Q); (2024, 18%Q); (2025, 18%Q); (2026, 18%Q);
         (2027, 18%Q); (2028, 0%Q)].
Proof.
  split; [|split].
  - apply project_emissions_refines.
  - intros Hp. split; [apply modified_value_one_shot; exact Hp|].
    rewrite project_emissions_refines.
    + unfold Spec.project, Spec.emission. f_equal. apply map_ext. intros k.
      rewrite (modified_value_one_shot rd source m start_year (S k) Hp).
      reflexivity.
    + constructor; [|constructor]. intros H. congruence.
  - vm_compute. reflexivity.
Qed.

(** Without the invariant the projection raises: a progressive
    modification that has no [end_year] makes [project_emissions] fail
    with a [TypeError] in the first year it covers. *)
Example project_emissions_raises :
  ~ Spec.well_formed Scenario.open_progressive
  /\ Views.project_emissions Rounding.decimal28 Scenario.source
                             [Scenario.open_progressive] 2023 2028
     = Raise TypeError.
Proof.
  split.
  - intros H. destruct (H eq_refl) as [He _]. apply He. reflexivity.
  - vm_compute. reflexivity.
Qed.

Lemma project_emissions_running_value_witness :
  Forall Spec.well_formed [Scenario.reduction]
  /\ Modification.is_progressive Scenario.reduction = false
  /\ Views.project_emissions Rounding.decimal28 Scenario.source
                             [Scenario.reduction] 2023 2028 =
     Ok (Spec.project Rounding.decimal28 Scenario.source
                      [Scenario.reduction] 2023 2028)
  /\ Spec.modified_value Rounding.decimal28 Scenario.source
                         [Scenario.reduction] 2023 3 = 900%Q.
Proof.
  assert (Hwf : Forall Spec.well_formed [Scenario.reduction]).
  { constructor; [|constructor]. intros H. discriminate H. }
  split; [exact Hwf|]. split; [reflexivity|].
  destruct (project_emissions_running_value
              Rounding.decimal28 Scenario.source [Scenario.reduction]
              Scenario.reduction 2023 2028 3) as [H1 [H2 _]].
  split.
  - exact (H1 Hwf).
  - rewrite (proj1 (H2 eq_refl)). vm_compute. reflexivity.
Defined.

(** ** The projection does not read the modification type (C10) *)

Lemma for_each_ext {S X : Type} (body body' : S -> X -> result S) (xs : list X) :
  (forall st x, body st x = body' st x) ->
  forall st, for_each body xs st = for_each body' xs st.
Proof.
  intros H. induction xs as [|x xs IH]; intros st; simpl.
  - reflexivity.
  - rewrite H. destruct (body' st x); simpl; [apply IH | reflexivity].
Qed.

Section TypeBlind.
Variable rd : Q -> Q.
Variable source : Source.t.

Lemma apply_to_value_with_type (ty : string) (year : Z) (running : Q)
      (m : Modification.t) :
  Views.apply_to_value rd source year running (Modification.with_type ty m) =
  Views.apply_to_value rd source year running m.
Proof. destruct m; reflexivity. Qed.

Lemma project_year_retyped (ty : string) (before after : list Modification.t)
      (m : Modification.t) (st : list (Z * Q) * Q) (year : Z) :
  Views.project_year rd source (before ++ Modification.with_type ty m :: after) st year =
  Views.project_year rd source (before ++ m :: after) st year.
Proof.
  unfold Views.project_year. destruct st as [emissions running].
  destruct ((year <? Source.acquisition_year source)
            || (Source.acquisition_year source + Source.lifetime source <=? year));
    [reflexivity|].
  rewrite !for_each_app.
  destruct (for_each (Views.apply_to_value rd source year) before running)
    as [v|e]; [|reflexivity].
  cbn [bind for_each]. rewrite apply_to_value_with_type. reflexivity.
Qed.

Lemma project_emissions_retyped (ty : string) (before after : list Modification.t)
      (m : Modification.t) (start_year end_year : Z) :
  Views.project_emissions rd source (before ++ Modification.with_type ty m :: after)
                          start_year end_year =
  Views.project_emissions rd source (before ++ m :: after) start_year end_year.
Proof.
  unfold Views.project_emissions.
  rewrite (for_each_ext _ (Views.project_year rd source (before ++ m :: after)));
    [reflexivity|].
  intros st year. apply project_year_retyped.
Qed.

End TypeBlind.

(** C10. In [project_emissions] a non-progressive modification of type
    EF is applied exactly like one of type VALUE: in the year equal to
    its [start_year] (inside its window) the running value is multiplied
    by the modification's value, in every other year it is left as it
    is, and the emission factor of the source is not divided out.  The
    projection of a source with one such modification is
    [emission_factor * value * quantity / lifetime] in the years of the
    lifetime before the modification takes effect and
    [emission_factor * (value * modification.value) * quantity / lifetime]
    from then on; in a list of well-formed modifications the projection
    is the one of the running value, in which the step of the EF
    modification is that multiplication; and replacing the EF
    modification by the VALUE modification with the same fields changes
    nothing in the projection. *)
Theorem project_emissions_ef_like_value
        (rd : Q -> Q) (source : Source.t) (m : Modification.t)
        (before after : list Modification.t)
        (year start_year end_year : Z) (running : Q) :
  Modification.modification_type m = "EF"%string ->
  Modification.is_progressive m = false ->
  Views.apply_to_value rd source year running m =
    (if Views.covers m year && (year =? Modification.start_year m)
     then Ok (rd (running * Modification.value m)%Q)
     else Ok running)
  /\ Views.apply_to_value rd source year running m =
     Views.apply_to_value rd source year running (Modification.with_type "VALUE" m)
  /\ Views.project_emissions rd source (before ++ m :: after) start_year end_year =
     Views.project_emissions rd source (before ++ Modification.with_type "VALUE" m :: after)
                             start_year end_year
  /\ Views.project_emissions rd source [m] start_year end_year =
     Ok (map (fun k =>
                (start_year + Z.of_nat k,
                 if Spec.in_lifetime source (start_year + Z.of_nat k)
                 then rd (rd (rd (Source.emission_factor source
                                  * (if Spec.takes_effect source m start_year (S k)
                                     then rd (Source.value source
                                              * Modification.value m)
                                     else Source.value source))
                              * inject_Z (Source.quantity source))
                          / inject_Z (Source.lifetime source))%Q
                 else 0%Q))
             (seq 0 (Z.to_nat (end_year + 1 - start_year))))
  /\ (Forall Spec.well_formed (before ++ after) ->
      Views.project_emissions rd source (before ++ m :: after) start_year end_year =
      Ok (Spec.project rd source (before ++ m :: after) start_year end_year))
  /\ Spec.step rd source year running m =
     (if Views.covers m year && (year =? Modification.start_year m)
      then rd (running * Modification.value m)%Q
      else running).
Proof.
  intros _ Hp.
  assert (Hwf : Spec.well_formed m) by (intros H; congruence).
  split; [|split; [|split; [|split; [|split]]]].
  - unfold Views.apply_to_value. rewrite Hp.
    destruct (Views.covers m year); [|reflexivity].
    destruct (year =? Modification.start_year m); reflexivity.
  - symmetry. apply apply_to_value_with_type.
  - symmetry. apply project_emissions_retyped.
  - rewrite project_emissions_refines.
    + unfold Spec.project, Spec.emission. f_equal. apply map_ext. intros k.
      rewrite (modified_value_one_shot rd source m start_year (S k) Hp).
      reflexivity.
    + constructor; [exact Hwf | constructor].
  - intros H. apply project_emissions_refines.
    apply Forall_app in H. destruct H as [Hb Ha].
    apply Forall_app. split; [exact Hb|]. constructor; assumption.
  - unfold Spec.step. rewrite Hp.
    destruct (Views.covers m year); [|reflexivity].
    destruct (year =? Modification.start_year m); reflexivity.
Qed.

Lemma project_emissions_ef_like_value_witness :
  Modification.modification_type Scenario.ef_reduction = "EF"%string
  /\ Modification.is_progressive Scenario.ef_reduction = false
  /\ Views.apply_to_value Rounding.decimal28 Scenario.source 2024 1000
                          Scenario.ef_reduction = Ok 900%Q
  /\ Views.project_emissions Rounding.decimal28 Scenario.source
                             [Scenario.ef_reduction] 2023 2028 =
     Views.project_emissions Rounding.decimal28 Scenario.source
                             [Scenario.reduction] 2023 2028
  /\ Views.project_emissions Rounding.decimal28 Scenario.source
                             [Scenario.ef_reduction] 2023 2028 =
     Ok [(2023, 20%Q); (2024, 18%Q); (2025, 18%Q); (2026, 18%Q);
         (2027, 18%Q); (2028, 0%Q)].
Proof.
  split; [reflexivity|]. split; [reflexivity|].
  destruct (project_emissions_ef_like_value
              Rounding.decimal28 Scenario.source Scenario.ef_reduction [] []
              2024 2023 2028 1000 eq_refl eq_refl) as [H1 [_ [H3 [H4 _]]]].
  split; [|split].
  - rewrite H1. vm_compute. reflexivity.
  - exact H3.
  - rewrite H4. vm_compute. reflexivity.
Defined.

(** ** The lifetime window and the year pin (C5, C6) *)

Lemma dict_get_map_seq {V : Type} (f : nat -> V) (start : Z) (a n k : nat) :
  (a <= k < a + n)%nat ->
  dict_get (start + Z.of_nat k)
           (map (fun i => (start + Z.of_nat i, f i)) (seq a n)) = Some (f k).
Proof.
  revert a. induction n as [|n IH]; intros a H; [lia|].
  simpl. destruct (Z.eqb_spec (start + Z.of_nat a) (start + Z.of_nat k)) as [E|E].
  - assert (a = k) by lia. subst. reflexivity.
  - apply IH. assert (a <> k) by (intro; subst; apply E; reflexivity). lia.
Qed.

(** Outside the lifetime window the projection is 0, whatever the
    (well-formed) modifications. *)
Lemma project_emissions_zero_outside_lifetime
      (rd : Q -> Q) (source : Source.t) (modifications : list Modification.t)
      (start_year end_year year : Z) :
  Forall Spec.well_formed modifications ->
  start_year <= year <= end_year ->
  year < Source.acquisition_year source
  \/ Source.acquisition_year source + Source.lifetime source <= year ->
  exists emissions,
    Views.project_emissions rd source modifications start_year end_year = Ok emissions
    /\ dict_get year emissions = Some 0%Q.
Proof.
  intros Hwf Hr Hout. eexists. split.
  - apply project_emissions_refines. exact Hwf.
  - unfold Spec.project.
    replace year with (start_year + Z.of_nat (Z.to_nat (year - start_year))) by lia.
    rewrite dict_get_map_seq by lia.
    unfold Spec.emission, Spec.in_lifetime.
    replace (start_year + Z.of_nat (Z.to_nat (year - start_year))) with year by lia.
    compare_years; reflexivity.
Qed.

(** C5. The projection does not read [source.year]: for the source of
    the scenario pinned to 2023 and no modification, the year 2024 is
    not the pinned year, [calculate_emission_for_year] is 0 there, and
    [project_emissions] yields 20. *)
Theorem project_emissions_ignores_year_pin :
  Source.year Scenario.pinned_source = Some 2023
  /\ Source.clean Scenario.pinned_source = Ok tt
  /\ Source.calculate_emission_for_year Rounding.decimal28
                                        Scenario.pinned_source 2024 = 0%Q
  /\ Views.project_emissions Rounding.decimal28 Scenario.pinned_source [] 2023 2024 =
     Ok [(2023, 20%Q); (2024, 20%Q)].
Proof. repeat split; vm_compute; reflexivity. Qed.

(** [calculate_emission_for_year] when the [year] column is null or
    holds a year other than 0. *)
Lemma calculate_emission_for_year_cases (rd : Q -> Q) (self : Source.t) (y : Z) :
  Source.year self <> Some 0 ->
  Source.calculate_emission_for_year rd self y =
  match Source.year self with
  | Some p => if negb (p =? y) then 0%Q
              else if (y <? Source.acquisition_year self)
                      || (Source.acquisition_year self + Source.lifetime self <=? y)
                   then 0%Q else Source.annual_emission rd self
  | None => if (y <? Source.acquisition_year self)
               || (Source.acquisition_year self + Source.lifetime self <=? y)
            then 0%Q else Source.annual_emission rd self
  end.
Proof.
  intros H. unfold Source.calculate_emission_for_year, Source.year_is, truthy.
  destruct (Source.year self) as [p|]; [|reflexivity].
  destruct (Z.eqb_spec p 0) as [E|E]; [subst; congruence|]. reflexivity.
Qed.

(** C6. A [year] column that holds 0 is set, but the test [self.year and
    ...] takes it for unset: the source of the scenario with [year = 0]
    passes [clean], and its emission for 2024, which is not the year 0,
    is the annual emission 100 instead of 0.  The same happens for a
    source whose pinned year 0 lies inside its lifetime: its emission
    for the year 1 is 100. *)
Theorem calculate_emission_for_year_year_zero :
  (Source.year Scenario.year_zero_source = Some 0
   /\ Source.clean Scenario.year_zero_source = Ok tt
   /\ Source.calculate_emission_for_year Rounding.decimal28
                                         Scenario.year_zero_source 2024 = 100%Q
   /\ Source.annual_emission Rounding.decimal28 Scenario.year_zero_source = 100%Q)
  /\ (Source.year Scenario.year_zero_origin_source = Some 0
      /\ Source.acquisition_year Scenario.year_zero_origin_source <= 0
         < Source.acquisition_year Scenario.year_zero_origin_source
           + Source.lifetime Scenario.year_zero_origin_source
      /\ Source.clean Scenario.year_zero_origin_source = Ok tt
      /\ Source.calculate_emission_for_year Rounding.decimal28
                                            Scenario.year_zero_origin_source 1
         = 100%Q).
Proof.
  split.
  - repeat split; vm_compute; reflexivity.
  - split; [reflexivity|]. split; [simpl; lia|].
    split; vm_compute; reflexivity.
Qed.

(** ** The cap of the projection horizon (C7) *)

(** The cap for a requested [end_year] other than 0, and for none. *)
Lemma project_modifications_cap
      (rd : Q -> Q) (source : Source.t) (modifications : list Modification.t)
      (start_year : Z) (requested : option Z) (r : Views.projection_response) :
  requested <> Some 0 ->
  Views.project_modifications rd source modifications start_year requested = Ok r ->
  Views.end_year r = match requested with
                     | Some e => Z.min e (start_year + 50)
                     | None => start_year + 50
                     end
  /\ Views.max_allowed_end_year r = start_year + 50
  /\ Views.start_year r = start_year
  /\ Views.project_emissions rd source modifications start_year (Views.end_year r)
     = Ok (Views.projections r).
Proof.
  intros Hz. unfold Views.project_modifications.
  set (e := Z.min _ _).
  destruct (Views.project_emissions rd source modifications start_year e)
    as [p|x] eqn:Hp; simpl; [|discriminate].
  intros H. injection H as <-. simpl.
  split; [|split; [reflexivity|split; [reflexivity|exact Hp]]].
  subst e. unfold truthy. destruct requested as [z|].
  - destruct (Z.eqb_spec z 0) as [E|E]; [subst; congruence|]. reflexivity.
  - simpl. lia.
Qed.

(** C7. A requested [end_year] of 0 is taken for an absent one: with
    [start_year = 2023] the effective [end_year] is 2073, not
    [min(0, 2073) = 0]. *)
Theorem project_modifications_end_year_zero :
  exists r,
    Views.project_modifications Rounding.decimal28 Scenario.source
                                [Scenario.reduction] 2023 (Some 0) = Ok r
    /\ Views.end_year r = 2073
    /\ Views.max_allowed_end_year r = 2073
    /\ Z.min 0 (2023 + 50) = 0.
Proof.
  eexists. split; [vm_compute; reflexivity|]. repeat split.
Qed.

(** ** The window of a modification in the pipeline (C4) *)

(** As the claim states it, a modification would leave the base emission
    as it is in every year outside its window.  After its [end_year] the
    pipeline still applies it: the reduction over 2024-2026 turns the
    base 100 into 90 in 2030. *)
Lemma apply_strategy_after_end_year :
  ~ (forall (rd : Q -> Q) (source : Source.t) (m : Modification.t)
            (year : Z) (base : Q),
        Views.covers m year = false ->
        Views.apply_strategy rd source year [m] base = Ok base).
Proof.
  intros H.
  specialize (H Rounding.decimal28 Scenario.source
                (Scenario.bounded_reduction 2030) 2030 100%Q eq_refl).
  vm_compute in H. discriminate H.
Qed.

(** C4, amended. The pipeline selects the modifications of a year by
    [start_year <= year] alone: a modification whose [start_year] is
    after the year is a no-op, the base passes through unchanged; a
    modification whose [start_year] is not after the year is applied by
    [calculate_modified_emission], which tests no window and does not
    read the year, so that the result is the same in every such year,
    also after [end_year].  A non-progressive VALUE modification
    multiplies the base by its value; an EF modification divides it by
    the emission factor of the source and multiplies it by its value; a
    progressive VALUE modification multiplies it, in exact arithmetic,
    by [current_value / source.value], where the progress of
    [current_value] is [min(calculation_year - start_year + 1,
    total_years) / total_years], taken from the stored
    [calculation_year] and never more than 1: once [calculation_year]
    has reached [end_year] the factor is [target_value / source.value]. *)
Theorem apply_strategy_start_year_only
        (rd : Q -> Q) (source : Source.t) (m : Modification.t)
        (rest : list Modification.t) (year later : Z) (base : Q) :
  (year < Modification.start_year m ->
   Views.apply_strategy rd source year (m :: rest) base =
   Views.apply_strategy rd source year rest base)
  /\ (year < Modification.start_year m ->
      Views.apply_strategy rd source year [m] base = Ok base)
  /\ (Modification.start_year m <= year ->
      Views.apply_strategy rd source year (m :: rest) base =
      (emission <- Modification.calculate_modified_emission rd m source (Some base) ;;
       Views.apply_strategy rd source year rest emission))
  /\ (Modification.start_year m <= year ->
      Modification.modification_type m = "VALUE"%string ->
      Modification.is_progressive m = false ->
      Views.apply_strategy rd source year [m] base =
      Ok (rd (base * Modification.value m)%Q))
  /\ (Modification.start_year m <= year -> year <= later ->
      Views.apply_strategy rd source later [m] base =
      Views.apply_strategy rd source year [m] base)
  /\ (Modification.start_year m <= year ->
      Modification.modification_type m = "EF"%string ->
      ~ Source.emission_factor source == 0 ->
      Views.apply_strategy rd source year [m] base =
      Ok (rd (rd (base / Source.emission_factor source) * Modification.value m)%Q))
  /\ (Modification.start_year m <= year ->
      Modification.modification_type m = "VALUE"%string ->
      Modification.is_progressive m = true ->
      forall (e : Z) (target : Q),
        Modification.end_year m = Some e ->
        Modification.target_value m = Some target ->
        Modification.start_year m <= e ->
        ~ Source.value source == 0 ->
        exists v,
          Views.apply_strategy Rounding.exact source year [m] base = Ok v
          /\ v == base
                  * ((Source.value source
                      + (target - Source.value source)
                        * (inject_Z (Z.min (Modification.calculation_year m
                                            - Modification.start_year m + 1)
                                           (e - Modification.start_year m + 1))
                           / inject_Z (e - Modification.start_year m + 1)))
                     / Source.value source)
          /\ (e <= Modification.calculation_year m ->
              v == base * (target / Source.value source))).
Proof.
  unfold Views.apply_strategy. cbn [filter].
  destruct (Z.leb_spec (Modification.start_year m) year) as [H|H].
  - split; [intros; lia|]. split; [intros; lia|].
    split; [intros _; reflexivity|].
    split; [|split; [|split]].
    + intros _ Hty Hp. cbn [for_each].
      unfold Modification.calculate_modified_emission. rewrite Hty, Hp.
      reflexivity.
    + intros _ Hl.
      destruct (Z.leb_spec (Modification.start_year m) later); [reflexivity | lia].
    + intros _ Hty Hef. cbn [for_each].
      unfold Modification.calculate_modified_emission. rewrite Hty.
      cbn [String.eqb Ascii.eqb Bool.eqb]. unfold ddiv.
      destruct (Qeq_bool (Source.emission_factor source) 0) eqn:E;
        [apply Qeq_bool_iff in E; contradiction|].
      reflexivity.
    + intros _ Hty Hp e target He Ht Hw Hv. cbn [for_each].
      unfold Modification.calculate_modified_emission, Modification.current_value.
      rewrite Hty, Hp, He, Ht. cbn [String.eqb Ascii.eqb Bool.eqb].
      unfold ddiv. rewrite inject_Z_nonzero by lia. cbn [bind].
      destruct (Qeq_bool (Source.value source) 0) eqn:E;
        [apply Qeq_bool_iff in E; contradiction|].
      cbn [bind]. unfold dmul, dadd, dsub, Rounding.exact.
      eexists. split; [reflexivity|]. split; [reflexivity|].
      intros Hc. rewrite Z.min_r by lia.
      assert (Ht0 : ~ inject_Z (e - Modification.start_year m + 1) == 0).
      { unfold Qeq. simpl. lia. }
      generalize dependent (inject_Z (e - Modification.start_year m + 1)).
      intros t Ht0. field. split; assumption.
  - split; [reflexivity|]. split; [reflexivity|].
    repeat split; intros; lia.
Qed.

Lemma apply_strategy_start_year_only_witness :
  (2023 < Modification.start_year Scenario.reduction
   /\ Views.apply_strategy Rounding.decimal28 Scenario.source 2023
                           [Scenario.reduction] 100 = Ok 100%Q)
  /\ (Modification.start_year (Scenario.bounded_reduction 2030) <= 2030
      /\ Views.apply_strategy Rounding.decimal28 Scenario.source 2030
                              [Scenario.bounded_reduction 2030] 100 = Ok 90%Q)
  /\ (Modification.start_year (Scenario.progressive 2030) <= 2028
      /\ exists v,
          Views.apply_strategy Rounding.exact Scenario.source 2028
                               [Scenario.progressive 2030] 100 = Ok v
          /\ v == 100 * (2000 / 1000)).
Proof.
  split; [|split].
  - assert (H : 2023 < Modification.start_year Scenario.reduction) by (simpl; lia).
    split; [exact H|].
    exact (proj1 (proj2 (apply_strategy_start_year_only
                           Rounding.decimal28 Scenario.source Scenario.reduction
                           [] 2023 2023 100%Q)) H).
  - assert (H : Modification.start_year (Scenario.bounded_reduction 2030) <= 2030)
      by (simpl; lia).
    split; [exact H|].
    rewrite (proj1 (proj2 (proj2 (proj2 (apply_strategy_start_year_only
                                           Rounding.decimal28 Scenario.source
                                           (Scenario.bounded_reduction 2030) [] 2030
                                           2030 100%Q)))) H eq_refl eq_refl).
    vm_compute. reflexivity.
  - assert (H : Modification.start_year (Scenario.progressive 2030) <= 2028)
      by (simpl; lia).
    split; [exact H|].
    destruct (proj2 (proj2 (proj2 (proj2 (proj2 (proj2
                (apply_strategy_start_year_only
                   Rounding.exact Scenario.source (Scenario.progressive 2030)
                   [] 2028 2028 100%Q))))))
                H eq_refl eq_refl 2026 2000%Q eq_refl eq_refl
                ltac:(simpl; lia) ltac:(intros E; vm_compute in E; discriminate E))
      as [v [H1 [_ H3]]].
    exists v. split; [exact H1|]. apply H3. simpl. lia.
Defined.

(** ** Linear interpolation (C2) *)

(** As the claim states it, the interpolated value in the first year of
    the window would be the value of the source.  The first year already
    counts as one year passed: over 2024-2026 towards 2000 the value
    1000 becomes 1333.33... in 2024, in the pipeline and in the
    projection. *)
Lemma current_value_at_start_year :
  ~ (forall (rd : Q -> Q) (source : Source.t) (m : Modification.t) (e : Z),
        (0 < Source.value source)%Q ->
        Modification.is_progressive m = true ->
        Modification.end_year m = Some e ->
        Modification.start_year m <= e ->
        (exists v, Modification.current_value
                     rd (Modification.for_year (Modification.start_year m) m) source = Ok v
                   /\ v == Source.value source)
        /\ (exists v, Views.interpolated_value
                        rd source m (Modification.start_year m) = Ok v
                      /\ v == Source.value source)).
Proof.
  intros H.
  destruct (H Rounding.decimal28 Scenario.source (Scenario.progressive 2024) 2026
              eq_refl eq_refl eq_refl) as [[v [Hv Heq]] _].
  - simpl. lia.
  - vm_compute in Hv. injection Hv as <-.
    vm_compute in Heq. discriminate Heq.
Qed.

Section Interpolation.
Variable source : Source.t.
Variable m : Modification.t.
Variables e y : Z.
Variable target : Q.
Hypothesis Hend : Modification.end_year m = Some e.
Hypothesis Htarget : Modification.target_value m = Some target.
Hypothesis Hwindow : Modification.start_year m <= y <= e.

Lemma current_value_exact :
  Modification.current_value Rounding.exact (Modification.for_year y m) source =
  Ok (Source.value source + (target - Source.value source) * Spec.progress_of m e y)%Q.
Proof.
  unfold Modification.current_value, Modification.for_year, Spec.progress_of. simpl.
  rewrite Hend, Htarget.
  rewrite Z.min_l by lia.
  unfold ddiv. rewrite inject_Z_nonzero by lia. reflexivity.
Qed.

Lemma interpolated_value_exact :
  Views.interpolated_value Rounding.exact source m y =
  Ok (Source.value source + (target - Source.value source) * Spec.progress_of m e y)%Q.
Proof.
  unfold Views.interpolated_value, Spec.progress_of.
  rewrite Hend, Htarget.
  rewrite Z.min_l by lia.
  unfold ddiv. rewrite inject_Z_nonzero by lia. reflexivity.
Qed.

End Interpolation.

Lemma inject_Z_div_same (z : Z) : z <> 0 -> inject_Z z / inject_Z z == 1.
Proof.
  intros H. apply Qmult_inv_r. intros E.
  unfold Qeq in E. simpl in E. lia.
Qed.

(** C2, amended. In exact arithmetic the interpolated [current_value] of
    a progressive modification over [s, e] is, in every year [y] of the
    window, [value + (target - value) * (y - s + 1) / (e - s + 1)], in
    the pipeline and in the projection alike: linear in [y], equal to
    [target_value] in the year [e] (progress 1), and equal to
    [value + (target - value) / (e - s + 1)] in the year [s] (progress
    [1 / (e - s + 1)], not 0). *)
Theorem current_value_linear
        (source : Source.t) (m : Modification.t) (e y : Z) (target : Q) :
  Modification.is_progressive m = true ->
  Modification.end_year m = Some e ->
  Modification.target_value m = Some target ->
  Modification.start_year m <= y <= e ->
  exists v,
    Modification.current_value Rounding.exact (Modification.for_year y m) source = Ok v
    /\ Views.interpolated_value Rounding.exact source m y = Ok v
    /\ v == Source.value source
            + (target - Source.value source)
              * (inject_Z (y - Modification.start_year m + 1)
                 / inject_Z (e - Modification.start_year m + 1))
    /\ (y = e -> v == target)
    /\ (y = Modification.start_year m ->
        v == Source.value source
             + (target - Source.value source)
               / inject_Z (e - Modification.start_year m + 1)).
Proof.
  intros _ Hend Htarget Hw.
  exists (Source.value source + (target - Source.value source)
                                * Spec.progress_of m e y)%Q.
  split; [apply current_value_exact; assumption|].
  split; [apply interpolated_value_exact; assumption|].
  split; [reflexivity|]. unfold Spec.progress_of. split.
  - intros ->. rewrite inject_Z_div_same by lia. ring.
  - intros ->.
    replace (Modification.start_year m - Modification.start_year m + 1) with 1 by lia.
    unfold Qdiv. ring.
Qed.

(** In Python's decimal arithmetic the scenario of the specification
    reaches the target 2000 in 2026, after 1333.33... in 2024 and
    1666.66... in 2025. *)
Example current_value_python :
  Modification.current_value Rounding.decimal28 (Scenario.progressive 2024)
                             Scenario.source
  = Ok 1333.333333333333333333333333%Q
  /\ Modification.current_value Rounding.decimal28 (Scenario.progressive 2025)
                                Scenario.source
     = Ok 1666.666666666666666666666667%Q
  /\ Modification.current_value Rounding.decimal28 (Scenario.progressive 2026)
                                Scenario.source
     = Ok 2000%Q.
Proof. repeat split; vm_compute; reflexivity. Qed.

Lemma current_value_linear_witness :
  exists v,
    Modification.current_value Rounding.exact (Scenario.progressive 2026)
                               Scenario.source = Ok v
    /\ v == 2000.
Proof.
  destruct (current_value_linear Scenario.source (Scenario.progressive 2024)
              2026 2026 2000 eq_refl eq_refl eq_refl)
    as [v [H1 [_ [_ [H4 _]]]]].
  - simpl. lia.
  - exists v. split; [exact H1 | exact (H4 eq_refl)].
Defined.

(** ** The aggregator and the pipeline on a progressive modification (C1) *)


Section Masks.
Context {A : Type}.

Lemma masked_map (f : Source.t -> A) (g : Source.t -> bool) (l : list Source.t) :
  Views.masked (map f l) (map g l) = map f (filter g l).
Proof.
  induction l as [|s l IH]; simpl; [reflexivity|].
  destruct (g s); simpl; rewrite IH; reflexivity.
Qed.
End Masks.

Lemma update_masked_map (F : Q -> Q) (h : Source.t -> Q) (g : Source.t -> bool)
      (l : list Source.t) :
  Views.update_masked F (map h l) (map g l) =
  map (fun s => if g s then F (h s) else h s) l.
Proof.
  induction l as [|s l IH]; simpl; [reflexivity|].
  rewrite IH. reflexivity.
Qed.

Lemma filter_none {X : Type} (g : X -> bool) (l : list X) :
  Forall (fun x => g x = false) l -> filter g l = [].
Proof.
  induction 1 as [|x l Hx _ IH]; simpl; [reflexivity|].
  rewrite Hx. exact IH.
Qed.

Lemma filter_single {X : Type} (g : X -> bool) (before after : list X) (x : X) :
  Forall (fun x => g x = false) before ->
  Forall (fun x => g x = false) after ->
  g x = true ->
  filter g (before ++ x :: after) = [x].
Proof.
  intros Hb Ha Hx. rewrite filter_app. simpl.
  rewrite (filter_none g before Hb), (filter_none g after Ha), Hx. reflexivity.
Qed.

Lemma nth_error_map_middle {X Y : Type} (f : X -> Y) (before after : list X) (x : X) :
  nth_error (map f (before ++ x :: after)) (length before) = Some (f x).
Proof.
  rewrite map_app. rewrite nth_error_app2 by (rewrite length_map; lia).
  rewrite length_map, Nat.sub_diag. reflexivity.
Qed.

Lemma progress_le_1 (a b : Z) : 0 < b -> a <= b ->
  Qle_bool (inject_Z a / inject_Z b) 1 = true.
Proof.
  intros Hb Hab. apply Qle_bool_iff. apply Qle_shift_div_r.
  - change 0%Q with (inject_Z 0). rewrite <- Zlt_Qlt. exact Hb.
  - rewrite Qmult_1_l. rewrite <- Zle_Qle. exact Hab.
Qed.

Section Agreement.
Variable src : Source.t.
Variables before after : list Source.t.
Variable m : Modification.t.
Variables year e : Z.
Variable target : Q.
Hypothesis Hvalue : (0 < Source.value src)%Q.
Hypothesis Hprog : Modification.is_progressive m = true.
Hypothesis Hend : Modification.end_year m = Some e.
Hypothesis Htarget : Modification.target_value m = Some target.
Hypothesis Hwindow : Modification.start_year m <= year <= e.
Hypothesis Hsource : Modification.source m = Source.id src.
Hypothesis Hids : Forall (fun s => Source.id s <> Source.id src) (before ++ after).
Hypothesis Hactive :
  Source.acquisition_year src <= year
  < Source.acquisition_year src + Source.lifetime src.

Let sources := before ++ src :: after.
Let progress : Q :=
  inject_Z (year - Modification.start_year m + 1)
  / inject_Z (e - Modification.start_year m + 1).

Lemma active_src : Views.active src year = true.
Proof.
  unfold Views.active. compare_years; reflexivity.
Qed.

Lemma mod_mask_filter :
  filter (fun s => Views.active s year && (Modification.source m =? Source.id s))
         sources = [src].
Proof.
  apply Forall_app in Hids. destruct Hids as [Hb Ha].
  apply filter_single.
  - eapply Forall_impl; [|exact Hb]. intros s Hs. simpl in Hs.
    rewrite Hsource. destruct (Z.eqb_spec (Source.id src) (Source.id s)); [congruence|].
    apply andb_false_r.
  - eapply Forall_impl; [|exact Ha]. intros s Hs. simpl in Hs.
    rewrite Hsource. destruct (Z.eqb_spec (Source.id src) (Source.id s)); [congruence|].
    apply andb_false_r.
  - rewrite Hsource, Z.eqb_refl, active_src. reflexivity.
Qed.

Lemma progressive_emission_exact :
  Views.progressive_emission Rounding.exact Rounding.exact sources year m =
  Ok (Source.emission_factor src
      * (Source.value src + (target - Source.value src) * progress)
      * inject_Z (Source.quantity src))%Q.
Proof.
  unfold Views.progressive_emission. rewrite Hend, Htarget.
  unfold Views.np_truediv.
  destruct (Z.eqb_spec (e - Modification.start_year m + 1) 0) as [E|_]; [lia|].
  cbn [bind Views.min_1]. unfold Rounding.exact.
  rewrite progress_le_1 by lia.
  unfold Views.first_masked, Views.values, Views.emission_factors,
    Views.quantities, Views.mod_mask.
  rewrite !masked_map, mod_mask_filter. reflexivity.
Qed.

Lemma aggregator_exact :
  exists original modified,
    Views.calculate_total_reduction_year Rounding.exact Rounding.exact
                                         sources [m] year = Ok (original, modified)
    /\ nth_error modified (length before) =
       Some (Source.emission_factor src
             * (Source.value src + (target - Source.value src) * progress)
             * inject_Z (Source.quantity src))%Q.
Proof.
  unfold Views.calculate_total_reduction_year. cbn [filter].
  assert (Hin : existsb (fun s => Modification.source m =? Source.id s) sources = true).
  { apply existsb_exists. exists src. split.
    - unfold sources. apply in_or_app. right. left. reflexivity.
    - rewrite Hsource. apply Z.eqb_refl. }
  rewrite Hin.
  destruct (Z.leb_spec (Modification.start_year m) year) as [_|H]; [|lia].
  cbn [andb for_each bind]. unfold Views.apply_to_emissions. rewrite Hprog.
  rewrite progressive_emission_exact. cbn [bind].
  eexists. eexists. split; [reflexivity|].
  unfold Views.original_emissions, Views.mod_mask.
  rewrite update_masked_map. unfold sources at 1.
  rewrite nth_error_map_middle.
  rewrite Hsource, Z.eqb_refl, active_src. reflexivity.
Qed.

End Agreement.

(** As the claim states it, the two paths would return the same number
    in Python's arithmetic.  For the scenario of the specification in
    2024 the aggregator stores the float 133.33333333333334 and the
    pipeline returns the Decimal 133.3333333333333333333333333. *)
Lemma progressive_paths_differ :
  ~ (forall (src : Source.t) (m : Modification.t) (year : Z)
            (original : list Q) (x y : Q),
        (0 < Source.value src)%Q ->
        Modification.modification_type m = "VALUE"%string ->
        Modification.is_progressive m = true ->
        Views.covers m year = true ->
        Modification.source m = Source.id src ->
        Views.calculate_total_reduction_year
          Rounding.decimal28 Rounding.binary64 [src] [m] year = Ok (original, [x]) ->
        Modification.calculate_modified_emission
          Rounding.decimal28 (Modification.for_year year m) src None = Ok y ->
        x == y).
Proof.
  intros H.
  specialize (H Scenario.source (Scenario.progressive 2024) 2024 [100%Q]
                (4691249611844267 # 35184372088832)
                (1333333333333333333333333333 # 10000000000000000000000000)
                eq_refl eq_refl eq_refl eq_refl eq_refl).
  assert (H1 : Views.calculate_total_reduction_year
                 Rounding.decimal28 Rounding.binary64 [Scenario.source]
                 [Scenario.progressive 2024] 2024 =
               Ok ([100%Q], [4691249611844267 # 35184372088832]))
    by (vm_compute; reflexivity).
  assert (H2 : Modification.calculate_modified_emission
                 Rounding.decimal28 (Modification.for_year 2024 (Scenario.progressive 2024))
                 Scenario.source None =
               Ok (1333333333333333333333333333 # 10000000000000000000000000))
    by (vm_compute; reflexivity).
  specialize (H H1 H2). vm_compute in H. discriminate H.
Qed.

(** The aggregator does not read [source.year]: for the source pinned
    to 2023 it stores 133.33333333333334 for 2024, where the pipeline,
    whose base is the emission of the year, returns 0. *)
Example aggregator_ignores_year_pin :
  Views.calculate_total_reduction_year
    Rounding.decimal28 Rounding.binary64 [Scenario.pinned_source]
    [Scenario.progressive 2024] 2024
  = Ok ([100%Q], [4691249611844267 # 35184372088832])
  /\ Modification.calculate_modified_emission
       Rounding.decimal28 (Scenario.progressive 2024) Scenario.pinned_source None
     = Ok 0%Q.
Proof. split; vm_compute; reflexivity. Qed.

(** For a source that is not active in the year the mask of the
    modification is empty and [values[mod_mask][0]] raises, where the
    pipeline returns 0. *)
Example aggregator_raises_on_inactive_source :
  Views.covers (Scenario.long_progressive 2029) 2029 = true
  /\ Views.active Scenario.source 2029 = false
  /\ Views.calculate_total_reduction_year
       Rounding.decimal28 Rounding.binary64 [Scenario.source]
       [Scenario.long_progressive 2029] 2029
     = Raise IndexError
  /\ Modification.calculate_modified_emission
       Rounding.decimal28 (Scenario.long_progressive 2029) Scenario.source None
     = Ok 0%Q.
Proof. repeat split; vm_compute; reflexivity. Qed.

Lemma Qeq_bool_pos (q : Q) : (0 < q)%Q -> Qeq_bool q 0 = false.
Proof.
  intros H. destruct (Qeq_bool q 0) eqn:E; [|reflexivity].
  apply Qeq_bool_eq in E. rewrite E in H. discriminate H.
Qed.

(** C1, amended. For a source with [value > 0] that is active in the
    year and not pinned to another year, a progressive VALUE
    modification with its [end_year] and [target_value], and a year of
    its window, the emission the aggregator stores for the source,
    [emission_factor * current_value * quantity], and the result of
    [calculate_modified_emission] for the same source, modification and
    year are the same rational number when both are evaluated in exact
    arithmetic, with the same progress [(year - s + 1) / (e - s + 1)]. *)
Theorem progressive_paths_agree_exactly
        (src : Source.t) (before after : list Source.t) (m : Modification.t)
        (year e : Z) (target : Q) :
  (0 < Source.value src)%Q ->
  Modification.modification_type m = "VALUE"%string ->
  Modification.is_progressive m = true ->
  Modification.end_year m = Some e ->
  Modification.target_value m = Some target ->
  Modification.start_year m <= year <= e ->
  Modification.source m = Source.id src ->
  Forall (fun s => Source.id s <> Source.id src) (before ++ after) ->
  Source.acquisition_year src <= year
  < Source.acquisition_year src + Source.lifetime src ->
  Source.year src = None \/ Source.year src = Some year ->
  exists original modified x y,
    Views.calculate_total_reduction_year
      Rounding.exact Rounding.exact (before ++ src :: after) [m] year =
      Ok (original, modified)
    /\ nth_error modified (length before) = Some x
    /\ Modification.calculate_modified_emission
         Rounding.exact (Modification.for_year year m) src None = Ok y
    /\ x == y.
Proof.
  intros Hv Hty Hp Hend Htarget Hw Hsrc Hids Hact Hpin.
  destruct (aggregator_exact src before after m year e target
              Hp Hend Htarget Hw Hsrc Hids Hact) as [original [modified [H1 H2]]].
  exists original, modified. eexists. eexists.
  split; [exact H1|]. split; [exact H2|]. split.
  - unfold Modification.calculate_modified_emission.
    replace (Modification.modification_type (Modification.for_year year m)) with "VALUE"%string
      by (symmetry; exact Hty).
    replace (Modification.is_progressive (Modification.for_year year m)) with true
      by (symmetry; exact Hp).
    cbn [String.eqb Ascii.eqb Bool.eqb].
    rewrite (current_value_exact src m e year target Hend Htarget Hw).
    cbn [bind]. unfold ddiv.
    rewrite (Qeq_bool_pos _ Hv). reflexivity.
  - assert (Hbase : Source.calculate_emission_for_year
                      Rounding.exact src (Modification.calculation_year (Modification.for_year year m))
                    = (Source.emission_factor src * Source.value src
                       * inject_Z (Source.quantity src))%Q).
    { unfold Source.calculate_emission_for_year, Source.year_is, truthy. simpl.
      assert (Hpin' : (match Source.year src with
                       | Some z => negb (z =? 0) | None => false end
                       && negb match Source.year src with
                               | Some p => p =? year | None => false end) = false).
      { destruct Hpin as [-> | ->]; [reflexivity|].
        rewrite Z.eqb_refl. apply andb_false_r. }
      rewrite Hpin'. compare_years; reflexivity. }
    rewrite Hbase. unfold dmul, Rounding.exact, Spec.progress_of.
    generalize (inject_Z (year - Modification.start_year m + 1)
                / inject_Z (e - Modification.start_year m + 1))%Q.
    generalize (inject_Z (Source.quantity src)).
    intros q p. field. intros Hz. rewrite Hz in Hv. discriminate Hv.
Qed.

Lemma progressive_paths_agree_exactly_witness :
  exists original modified x y,
    Views.calculate_total_reduction_year
      Rounding.exact Rounding.exact [Scenario.source]
      [Scenario.progressive 2024] 2025 = Ok (original, modified)
    /\ nth_error modified 0 = Some x
    /\ Modification.calculate_modified_emission
         Rounding.exact (Modification.for_year 2025 (Scenario.progressive 2024))
         Scenario.source None = Ok y
    /\ x == y.
Proof.
  apply (progressive_paths_agree_exactly
           Scenario.source [] [] (Scenario.progressive 2024) 2025 2026 2000).
  - reflexivity.
  - reflexivity.
  - reflexivity.
  - reflexivity.
  - reflexivity.
  - simpl. lia.
  - reflexivity.
  - constructor.
  - simpl. lia.
  - left. reflexivity.
Defined.

(** ** The total of a report for one year (C8) *)

Section YearTotal.
Variable y : Z.

Lemma calculate_emission_for_year_unpinned (s : Source.t) :
  Spec.unpinned y s ->
  Source.calculate_emission_for_year Rounding.exact s y =
  if (Source.acquisition_year s <=? y)
     && (y - Source.lifetime s <? Source.acquisition_year s)
  then (Source.emission_factor s * Source.value s * inject_Z (Source.quantity s))%Q
  else 0%Q.
Proof.
  intros Hp. unfold Source.calculate_emission_for_year, Source.year_is, truthy.
  assert (Hpin : (match Source.year s with
                  | Some z => negb (z =? 0) | None => false end
                  && negb match Source.year s with
                          | Some p => p =? y | None => false end) = false).
  { destruct Hp as [-> | ->]; [reflexivity|].
    rewrite Z.eqb_refl. apply andb_false_r. }
  rewrite Hpin. compare_years; reflexivity.
Qed.

Lemma fold_filter_sum (rows : list Source.t) (acc acc' : Q) :
  Forall (Spec.unpinned y) rows ->
  acc == acc' ->
  fold_left (fun a s => (a + Source.emission_factor s * Source.value s
                             * inject_Z (Source.quantity s))%Q)
            (filter (fun s => (Source.acquisition_year s <=? y)
                              && (y - Source.lifetime s <? Source.acquisition_year s))
                    rows) acc
  == fold_left (fun a s =>
                  (a + Source.calculate_emission_for_year Rounding.exact s y)%Q)
               rows acc'.
Proof.
  intros H. revert acc acc'. induction H as [|s rows Hs _ IH]; intros acc acc' E.
  - exact E.
  - cbn [filter fold_left]. rewrite (calculate_emission_for_year_unpinned s Hs).
    destruct ((Source.acquisition_year s <=? y)
              && (y - Source.lifetime s <? Source.acquisition_year s)).
    + cbn [fold_left]. apply IH. rewrite E. reflexivity.
    + apply IH. rewrite E. ring.
Qed.

Lemma or_zero_eq (t : option Q) :
  Report.or_zero t == match t with Some x => x | None => 0 end.
Proof.
  destruct t as [x|]; simpl; [|reflexivity].
  destruct (Qeq_bool x 0) eqn:E; [|reflexivity].
  apply Qeq_bool_eq in E. rewrite E. reflexivity.
Qed.

(** When no source of the report is pinned to another year, the total
    of the year is the sum of the emissions of the sources. *)
Lemma total_emissions_unpinned (d : Report.db) (report_id now : Z) :
  Forall (Spec.unpinned y) (Report.sources_of d report_id) ->
  Report.total_emissions d report_id now (Some y)
  == Spec.sum_of_emissions y (Report.sources_of d report_id).
Proof.
  intros H. unfold Report.total_emissions, Spec.sum_of_emissions.
  rewrite or_zero_eq. unfold Report.Sum.
  destruct (filter _ (Report.sources_of d report_id)) as [|s l] eqn:Ef.
  - rewrite <- (fold_filter_sum _ 0 0 H); [|reflexivity]. rewrite Ef. reflexivity.
  - rewrite <- Ef. apply fold_filter_sum; [exact H | reflexivity].
Qed.

End YearTotal.

(** C8. [Report.total_emissions] does not read [source.year]: for the
    report that holds the source pinned to 2023, the total of 2024 is
    100, while the emission of the source for 2024, and so the sum of
    the emissions of the sources, is 0. *)
Theorem total_emissions_ignores_year_pin :
  Report.sources_of Scenario.pinned_db 1 = [Scenario.pinned_source]
  /\ Report.total_emissions Scenario.pinned_db 1 2024 (Some 2024) == 100
  /\ Source.calculate_emission_for_year Rounding.decimal28
                                        Scenario.pinned_source 2024 = 0%Q
  /\ Spec.sum_of_emissions 2024 (Report.sources_of Scenario.pinned_db 1) = 0%Q.
Proof. repeat split. Qed.

(** ** The cached total of a report (C9) *)

(** As the claim states it, after a source of a report was saved the
    cached total of that report would be the total computed afresh, and
    no read would see a stale value.  (a) An update that moves the
    source to report 2 refreshes report 2 only: report 1 keeps the
    cached 200 while its total is 0.  (b) The cache column is a float:
    for a total of 0.1 it holds the binary64 number next to 0.1.  (c) A
    read in 2025 of the report as the database holds it returns the 200
    cached in 2024 while the total of 2025 is 300. *)
Lemma cached_total_stale :
  (exists d1 d2 report,
      Report.save_source Rounding.binary64 Scenario.field_checks
                         Scenario.empty_db Scenario.source 2024
      = Ok d1
      /\ Report.cached d1 1 = Some 200%Q
      /\ Report.save_source Rounding.binary64 Scenario.field_checks
                            d1 Scenario.moved_source 2024 = Ok d2
      /\ Report.sources_of d1 1 = [Scenario.source]
      /\ Report.sources_of d2 1 = []
      /\ Report.cached d2 1 = Some 200%Q
      /\ Report.total_emissions d2 1 2024 None = 0%Q
      /\ Report.get d1 1 = Ok report
      /\ Report.get_total_emissions Rounding.binary64 d1 report 2025
         = (d1, report, Some 200%Q)
      /\ Report.total_emissions d1 1 2025 None == 300)
  /\ (exists d1 c,
         Report.save_source Rounding.binary64 Scenario.field_checks
                            Scenario.empty_db Scenario.small_source 2023 = Ok d1
         /\ Report.cached d1 1 = Some c
         /\ Report.total_emissions d1 1 2023 None == 1 # 10
         /\ ~ c == 1 # 10).
Proof.
  split.
  - eexists. eexists. eexists.
    split; [vm_compute; reflexivity|].
    split; [reflexivity|].
    split; [vm_compute; reflexivity|].
    repeat split.
  - eexists. eexists.
    split; [vm_compute; reflexivity|].
    split; [reflexivity|].
    split; [reflexivity|].
    intros H. vm_compute in H. discriminate H.
Qed.

Section CacheRefresh.
Variable rf : Q -> Q.

Lemma find_report (report_id : Z) (rows : list Report.t) :
  match find (fun r => Report.id r =? report_id) rows with
  | Some r => Report.id r = report_id
              /\ existsb (fun r => Report.id r =? report_id) rows = true
  | None => existsb (fun r => Report.id r =? report_id) rows = false
  end.
Proof.
  induction rows as [|r rows IH]; simpl; [reflexivity|].
  destruct (Z.eqb_spec (Report.id r) report_id) as [E|E].
  - split; [exact E | reflexivity].
  - exact IH.
Qed.

(** The handler, on the rows: the cache column of the report of the
    instance is replaced by the float of the total, and a missing report
    raises. *)
Lemma update_report_emissions_rows (d : Report.db) (instance : Source.t) (now : Z) :
  Report.update_report_emissions rf d instance now =
  if existsb (fun r => Report.id r =? Source.report instance) (Report.reports d)
  then Ok (Report.mk_db
             (Report.sources d)
             (map (fun r =>
                     if Report.id r =? Source.report instance
                     then Report.mk (Report.id r)
                            (Some (rf (Report.total_emissions
                                         d (Source.report instance) now None)))
                     else r)
                  (Report.reports d)))
  else Raise DoesNotExist.
Proof.
  unfold Report.update_report_emissions, Report.get.
  pose proof (find_report (Source.report instance) (Report.reports d)) as H.
  destruct (find _ (Report.reports d)) as [r|].
  - destruct H as [Hid Hex]. rewrite Hex. cbn [bind].
    unfold Report.update_total_emissions, Report.save.
    cbn [fst Report.id Report.total_emissions_cache option_map].
    rewrite Hid, Hex. f_equal. f_equal. apply map_ext. intros r'.
    destruct (Z.eqb_spec (Report.id r') (Source.report instance)) as [E|_];
      [rewrite E|]; reflexivity.
  - rewrite H. reflexivity.
Qed.

Lemma find_updated_row (report_id : Z) (c : option Q) (rows : list Report.t) :
  existsb (fun r => Report.id r =? report_id) rows = true ->
  find (fun r => Report.id r =? report_id)
       (map (fun r => if Report.id r =? report_id
                      then Report.mk (Report.id r) c else r) rows)
  = Some (Report.mk report_id c).
Proof.
  induction rows as [|r rows IH]; simpl; [discriminate|].
  destruct (Z.eqb_spec (Report.id r) report_id) as [E|E]; simpl.
  - intros _. rewrite E, Z.eqb_refl. reflexivity.
  - intros H. destruct (Z.eqb_spec (Report.id r) report_id); [contradiction|].
    apply IH. exact H.
Qed.

Lemma update_report_emissions_fresh (d : Report.db) (instance : Source.t) (now : Z) :
  existsb (fun r => Report.id r =? Source.report instance) (Report.reports d) = true ->
  exists d',
    Report.update_report_emissions rf d instance now = Ok d'
    /\ Report.sources d' = Report.sources d
    /\ Report.cached d' (Source.report instance)
       = Some (rf (Report.total_emissions d' (Source.report instance) now None))
    /\ Report.get d' (Source.report instance)
       = Ok (Report.mk (Source.report instance)
               (Some (rf (Report.total_emissions
                            d' (Source.report instance) now None)))).
Proof.
  intros H. rewrite update_report_emissions_rows, H.
  eexists. split; [reflexivity|]. split; [reflexivity|].
  unfold Report.cached, Report.get. cbn [Report.reports].
  rewrite (find_updated_row (Source.report instance) _ _ H). split; reflexivity.
Qed.

End CacheRefresh.

(** C9, amended. When a source is saved (created or updated) or
    deleted, the handler recomputes, in the same call, the cached total
    of the report the instance refers to.  If that report exists, a save
    whose [full_clean] passes and every delete succeed, and afterwards
    the cache column of that report holds the float nearest to
    [total_emissions(report)] computed on the new rows at that time; a
    read of the report as the database then holds it returns this value
    and writes nothing, whatever the year of the read.  A save whose
    [full_clean] fails raises [ValidationError]. *)
Theorem cached_total_refreshed
        (rf : Q -> Q) (valid : Report.db -> Source.t -> bool)
        (d : Report.db) (instance : Source.t) (now later : Z) :
  existsb (fun r => Report.id r =? Source.report instance) (Report.reports d) = true ->
  (Report.full_clean valid d instance = Ok tt ->
   exists d' report,
     Report.save_source rf valid d instance now = Ok d'
     /\ Report.cached d' (Source.report instance)
        = Some (rf (Report.total_emissions d' (Source.report instance) now None))
     /\ Report.get d' (Source.report instance) = Ok report
     /\ Report.get_total_emissions rf d' report later
        = (d', report,
           Some (rf (Report.total_emissions d' (Source.report instance) now None))))
  /\ (Report.full_clean valid d instance <> Ok tt ->
      Report.save_source rf valid d instance now = Raise ValidationError)
  /\ (exists d' report,
         Report.delete_source rf d instance now = Ok d'
         /\ Report.cached d' (Source.report instance)
            = Some (rf (Report.total_emissions d' (Source.report instance) now None))
         /\ Report.get d' (Source.report instance) = Ok report
         /\ Report.get_total_emissions rf d' report later
            = (d', report,
               Some (rf (Report.total_emissions
                           d' (Source.report instance) now None)))).
Proof.
  intros H. split; [|split].
  - intros Hc. unfold Report.save_source. rewrite Hc. cbn [bind].
    match goal with
    | |- context [Report.update_report_emissions rf ?d0 _ _] =>
        destruct (update_report_emissions_fresh rf d0 instance now H)
          as [d' [H1 [_ [H3 H4]]]]
    end.
    eexists. eexists. split; [exact H1|]. split; [exact H3|].
    split; [exact H4|]. reflexivity.
  - intros Hc. unfold Report.save_source, Report.full_clean, Source.clean in *.
    destruct (valid d instance); [|reflexivity].
    destruct (Qle_bool (Source.value instance) 0); [reflexivity|].
    destruct (Source.quantity instance <=? 0); [reflexivity|].
    match goal with
    | |- context [if ?c then Raise ValidationError else Ok tt] => destruct c
    end; [reflexivity | congruence].
  - unfold Report.delete_source.
    match goal with
    | |- context [Report.update_report_emissions rf ?d0 _ _] =>
        destruct (update_report_emissions_fresh rf d0 instance now H)
          as [d' [H1 [_ [H3 H4]]]]
    end.
    eexists. eexists. split; [exact H1|]. split; [exact H3|].
    split; [exact H4|]. reflexivity.
Qed.

Lemma cached_total_refreshed_witness :
  existsb (fun r => Report.id r =? Source.report Scenario.source)
          (Report.reports Scenario.empty_db) = true
  /\ Report.full_clean Scenario.field_checks Scenario.empty_db Scenario.source = Ok tt
  /\ exists d' report,
      Report.save_source Rounding.binary64 Scenario.field_checks
                         Scenario.empty_db Scenario.source 2024
      = Ok d'
      /\ Report.cached d' (Source.report Scenario.source)
         = Some (Rounding.binary64
                   (Report.total_emissions d' (Source.report Scenario.source)
                                           2024 None))
      /\ Report.get d' (Source.report Scenario.source) = Ok report
      /\ Report.get_total_emissions Rounding.binary64 d' report 2025
         = (d', report,
            Some (Rounding.binary64
                    (Report.total_emissions d' (Source.report Scenario.source)
                                            2024 None))).
Proof.
  split; [reflexivity|]. split; [reflexivity|].
  exact (proj1 (cached_total_refreshed Rounding.binary64 Scenario.field_checks
                                       Scenario.empty_db Scenario.source 2024 2025
                                       eq_refl) eq_refl).
Defined.

(** ** The shape of a projection *)

Lemma for_each_snoc_ok {S X : Type} (body : S -> X -> result S)
      (xs : list X) (x : X) (st0 st : S) :
  for_each body (xs ++ [x]) st0 = Ok st ->
  exists st1, for_each body xs st0 = Ok st1 /\ body st1 x = Ok st.
Proof.
  rewrite for_each_app. destruct (for_each body xs st0) as [st1|e]; simpl.
  - intros H. exists st1. split; [reflexivity|].
    destruct (body st1 x); simpl in H; [exact H | discriminate H].
  - discriminate.
Qed.

Lemma project_year_key (rd : Q -> Q) (source : Source.t)
      (modifications : list Modification.t) (st st' : list (Z * Q) * Q) (year : Z) :
  Views.project_year rd source modifications st year = Ok st' ->
  exists v, fst st' = dict_set year v (fst st).
Proof.
  unfold Views.project_year. destruct st as [emissions running].
  destruct ((year <? Source.acquisition_year source)
            || (Source.acquisition_year source + Source.lifetime source <=? year)).
  - intros H. injection H as <-. eexists. reflexivity.
  - destruct (for_each _ modifications running) as [v|e]; simpl; [|discriminate].
    destruct (ddiv rd _ _) as [x|e]; simpl; [|discriminate].
    intros H. injection H as <-. eexists. reflexivity.
Qed.

Lemma project_loop_keys (rd : Q -> Q) (source : Source.t)
      (modifications : list Modification.t) (start_year : Z) (n : nat)
      (st0 st : list (Z * Q) * Q) :
  fst st0 = [] ->
  for_each (Views.project_year rd source modifications)
           (map (fun i => start_year + Z.of_nat i) (seq 0 n)) st0 = Ok st ->
  map fst (fst st) = map (fun i => start_year + Z.of_nat i) (seq 0 n).
Proof.
  intros H0. revert st. induction n as [|n IH]; intros st.
  - simpl. intros H. injection H as <-. rewrite H0. reflexivity.
  - rewrite seq_S, map_app. cbn [map Nat.add]. intros H.
    apply for_each_snoc_ok in H. destruct H as [st1 [H1 H2]].
    apply project_year_key in H2. destruct H2 as [v Hv].
    rewrite Hv, dict_set_fresh.
    + rewrite map_app, (IH st1 H1). reflexivity.
    + intros k Hk. rewrite (IH st1 H1) in Hk.
      apply in_map_iff in Hk. destruct Hk as [i [Hi Hin]].
      apply in_seq in Hin. lia.
Qed.

(** X1. Whenever [project_emissions] returns, the dict has exactly one
    entry per year of [start_year .. end_year], in ascending order; it
    is empty when [end_year < start_year]. *)
Theorem project_emissions_years
        (rd : Q -> Q) (source : Source.t) (modifications : list Modification.t)
        (start_year end_year : Z) (emissions : list (Z * Q)) :
  Views.project_emissions rd source modifications start_year end_year = Ok emissions ->
  map fst emissions = range start_year (end_year + 1)
  /\ length emissions = Z.to_nat (end_year + 1 - start_year)
  /\ (end_year < start_year -> emissions = []).
Proof.
  unfold Views.project_emissions, range. intros H.
  destruct (for_each _ _ _) as [st|e] eqn:E; simpl in H; [|discriminate].
  injection H as <-.
  pose proof (project_loop_keys rd source modifications start_year _
                                 ([], Source.value source) st eq_refl E) as K.
  split; [exact K|]. split.
  - rewrite <- (length_map fst), K, length_map, length_seq. reflexivity.
  - intros Hlt. replace (Z.to_nat (end_year + 1 - start_year)) with 0%nat in K by lia.
    simpl in K. destruct (fst st); [reflexivity | discriminate K].
Qed.

Lemma project_emissions_years_witness :
  exists emissions,
    Views.project_emissions Rounding.decimal28 Scenario.source
                            [Scenario.reduction] 2023 2028 = Ok emissions
    /\ map fst emissions = [2023; 2024; 2025; 2026; 2027; 2028].
Proof.
  destruct (Views.project_emissions Rounding.decimal28 Scenario.source
                                    [Scenario.reduction] 2023 2028)
    as [emissions|e] eqn:E; [|vm_compute in E; discriminate E].
  exists emissions. split; [reflexivity|].
  exact (proj1 (project_emissions_years _ _ _ _ _ _ E)).
Defined.

(** X2. Whatever end year is requested, a projection that is returned
    has at most 51 entries, all of them for years of
    [start_year .. start_year + 50], and its reported [end_year] does
    not exceed [max_allowed_end_year = start_year + 50]. *)
Theorem project_modifications_horizon
        (rd : Q -> Q) (source : Source.t) (modifications : list Modification.t)
        (start_year : Z) (requested : option Z) (r : Views.projection_response) :
  Views.project_modifications rd source modifications start_year requested = Ok r ->
  (length (Views.projections r) <= 51)%nat
  /\ Views.end_year r <= Views.max_allowed_end_year r
  /\ Views.max_allowed_end_year r = start_year + 50
  /\ forall year, In year (map fst (Views.projections r)) ->
                  start_year <= year <= start_year + 50.
Proof.
  unfold Views.project_modifications.
  set (e := Z.min _ _).
  assert (He : e <= start_year + 50) by (subst e; lia).
  destruct (Views.project_emissions rd source modifications start_year e)
    as [p|x] eqn:Hp; simpl; [|discriminate].
  intros H. injection H as <-. simpl.
  apply project_emissions_years in Hp. destruct Hp as [K [L _]].
  split; [lia|]. split; [exact He|]. split; [reflexivity|].
  intros year Hy. rewrite K in Hy. unfold range in Hy.
  apply in_map_iff in Hy. destruct Hy as [i [Hi Hin]].
  apply in_seq in Hin. lia.
Qed.

Lemma project_modifications_horizon_witness :
  exists r,
    Views.project_modifications Rounding.decimal28 Scenario.source
                                [Scenario.reduction] 2023 (Some 3023) = Ok r
    /\ (length (Views.projections r) <= 51)%nat.
Proof.
  destruct (Views.project_modifications Rounding.decimal28 Scenario.source
                                        [Scenario.reduction] 2023 (Some 3023))
    as [r|e] eqn:E; [|vm_compute in E; discriminate E].
  exists r. split; [reflexivity|].
  exact (proj1 (project_modifications_horizon _ _ _ _ _ _ E)).
Defined.

(** ** A progressive modification after its window *)

Section AfterWindow.
Variable rd : Q -> Q.
Variable source : Source.t.
Variable m : Modification.t.
Variable e : Z.
Hypothesis Hprog : Modification.is_progressive m = true.
Hypothesis Hend : Modification.end_year m = Some e.
Hypothesis Hstart : Modification.start_year m <= e.



End AfterWindow.



(** ** A validated source *)

(** X4. A source that [clean] accepts has a positive value and quantity,
    and when it is pinned to a (non-zero) year it emits in that year and
    in no other: its emission of the pinned year is the annual emission
    and its emission of every other year is 0. *)
Theorem clean_pinned_source_emits_once
        (rd : Q -> Q) (self : Source.t) (p y : Z) :
  Source.clean self = Ok tt ->
  (0 < Source.value self)%Q
  /\ 0 < Source.quantity self
  /\ (Source.year self = Some p -> p <> 0 ->
      Source.acquisition_year self <= p
      < Source.acquisition_year self + Source.lifetime self
      /\ Source.calculate_emission_for_year rd self p = Source.annual_emission rd self
      /\ (y <> p -> Source.calculate_emission_for_year rd self y = 0%Q)).
Proof.
  unfold Source.clean. intros Hc.
  destruct (Qle_bool (Source.value self) 0) eqn:Ev; [discriminate|].
  destruct (Z.leb_spec (Source.quantity self) 0) as [Hq|Hq]; [discriminate|].
  split.
  { apply Qnot_le_lt. intros H. apply Qle_bool_iff in H. congruence. }
  split; [exact Hq|].
  intros Hy Hp.
  rewrite Hy in Hc. unfold truthy in Hc.
  destruct (Z.eqb_spec p 0) as [E|_]; [contradiction|]. cbn [negb andb] in Hc.
  destruct (Z.ltb_spec p (Source.acquisition_year self)) as [H1|H1]; [discriminate|].
  destruct (Z.leb_spec (Source.acquisition_year self + Source.lifetime self) p)
    as [H2|H2]; [discriminate|].
  split; [lia|].
  unfold Source.calculate_emission_for_year, Source.year_is, truthy. rewrite Hy.
  destruct (Z.eqb_spec p 0) as [E|_]; [contradiction|]. cbn [negb andb].
  split.
  - rewrite Z.eqb_refl. cbn [negb]. compare_years; reflexivity.
  - intros Hne. destruct (Z.eqb_spec p y) as [E|_]; [congruence|]. reflexivity.
Qed.

Lemma clean_pinned_source_emits_once_witness :
  (0 < Source.value Scenario.pinned_source)%Q
  /\ Source.calculate_emission_for_year Rounding.decimal28 Scenario.pinned_source 2023
     = Source.annual_emission Rounding.decimal28 Scenario.pinned_source
  /\ Source.calculate_emission_for_year Rounding.decimal28 Scenario.pinned_source 2025
     = 0%Q.
Proof.
  destruct (clean_pinned_source_emits_once
              Rounding.decimal28 Scenario.pinned_source 2023 2025 eq_refl)
    as [Hv [_ H]].
  split; [exact Hv|].
  destruct (H eq_refl ltac:(discriminate)) as [_ [H1 H2]].
  split; [exact H1|]. apply H2. discriminate.
Defined.

(** ** Emissions year by year and over the lifetime *)

Lemma dict_of_years {V : Type} (f : Z -> V) (start : Z) (n : nat) :
  fold_left (fun d year => dict_set year (f year) d)
            (map (fun i => start + Z.of_nat i) (seq 0 n)) [] =
  map (fun i => (start + Z.of_nat i, f (start + Z.of_nat i))) (seq 0 n).
Proof.
  induction n as [|n IH]; [reflexivity|].
  rewrite seq_S, !map_app, fold_left_app, IH. cbn [map fold_left Nat.add].
  apply dict_set_fresh. intros k Hk. rewrite map_map in Hk. simpl in Hk.
  apply in_map_iff in Hk. destruct Hk as [i [Hi Hin]].
  apply in_seq in Hin. lia.
Qed.

Lemma dict_get_absent {V : Type} (k : Z) (d : list (Z * V)) :
  ~ In k (map fst d) -> dict_get k d = None.
Proof.
  induction d as [|[k' v] d IH]; intros H; simpl; [reflexivity|].
  destruct (Z.eqb_spec k' k) as [E|_].
  - exfalso. apply H. left. exact E.
  - apply IH. intros Hin. apply H. right. exact Hin.
Qed.

(** X5. [calculate_emissions_for_years] returns one entry per year from
    the first year ([start_year], or the acquisition year when
    [start_year] is absent or the integer 0) to the last year
    ([end_year], or the current year when [end_year] is absent or the
    integer 0), each holding [calculate_emission_for_year] of that year;
    a year outside the range has no entry, and the dict is empty when
    the last year is before the first.  An argument 0 gives the same
    dict as an absent one. *)
Theorem calculate_emissions_for_years_entries
        (rd : Q -> Q) (source : Source.t) (start_year end_year : option Z)
        (current_year year : Z) :
  let emissions :=
    Views.calculate_emissions_for_years rd source start_year end_year current_year in
  let s := Derived.first_year source start_year in
  let e := Derived.last_year end_year current_year in
  length emissions = Z.to_nat (e + 1 - s)
  /\ dict_get year emissions =
     (if (s <=? year) && (year <=? e)
      then Some (Source.calculate_emission_for_year rd source year)
      else None)
  /\ (e < s -> emissions = [])
  /\ Views.calculate_emissions_for_years rd source (Some 0) end_year current_year
     = Views.calculate_emissions_for_years rd source None end_year current_year
  /\ Views.calculate_emissions_for_years rd source start_year (Some 0) current_year
     = Views.calculate_emissions_for_years rd source start_year None current_year.
Proof.
  intros emissions s e.
  assert (E : emissions =
              map (fun i => (s + Z.of_nat i,
                             Source.calculate_emission_for_year
                               rd source (s + Z.of_nat i)))
                  (seq 0 (Z.to_nat (e + 1 - s)))).
  { subst emissions s e. unfold Views.calculate_emissions_for_years, range.
    rewrite dict_of_years.
    destruct start_year as [[|p|p]|]; destruct end_year as [[|p'|p']|];
      reflexivity. }
  rewrite E. split; [|split; [|split; [|split]]].
  - rewrite length_map, length_seq. reflexivity.
  - destruct (Z.leb_spec s year) as [H1|H1]; destruct (Z.leb_spec year e) as [H2|H2];
      cbn [andb].
    + replace year with (s + Z.of_nat (Z.to_nat (year - s))) at 1 by lia.
      rewrite (dict_get_map_seq
                 (fun i => Source.calculate_emission_for_year rd source (s + Z.of_nat i)))
        by lia.
      f_equal. f_equal. lia.
    + apply dict_get_absent. rewrite map_map. cbn [fst].
      intros Hin. apply in_map_iff in Hin. destruct Hin as [i [Hi Hin]].
      apply in_seq in Hin. lia.
    + apply dict_get_absent. rewrite map_map. cbn [fst].
      intros Hin. apply in_map_iff in Hin. destruct Hin as [i [Hi Hin]]. lia.
    + apply dict_get_absent. rewrite map_map. cbn [fst].
      intros Hin. apply in_map_iff in Hin. destruct Hin as [i [Hi Hin]]. lia.
  - intros Hlt. replace (Z.to_nat (e + 1 - s)) with 0%nat by lia. reflexivity.
  - reflexivity.
  - destruct start_year as [[|p|p]|]; reflexivity.
Qed.

Lemma sum_values_snoc (d : list (Z * Q)) (k : Z) (v : Q) :
  Derived.sum_values (d ++ [(k, v)]) = (Derived.sum_values d + v)%Q.
Proof. unfold Derived.sum_values. rewrite fold_left_app. reflexivity. Qed.

Section LifetimeSum.
Variable source : Source.t.
Hypothesis Hunpinned : truthy (Source.year source) = false.
Hypothesis Hlifetime : 0 <= Source.lifetime source.

Lemma sum_first_years (n : nat) :
  Derived.sum_values (map (fun i =>
                     (Source.acquisition_year source + Z.of_nat i,
                      Source.calculate_emission_for_year
                        Rounding.exact source
                        (Source.acquisition_year source + Z.of_nat i)))
                  (seq 0 n))
  == Source.annual_emission Rounding.exact source
     * inject_Z (Z.min (Z.of_nat n) (Source.lifetime source)).
Proof.
  induction n as [|n IH].
  - unfold Derived.sum_values. simpl. rewrite Z.min_l by lia. ring.
  - rewrite seq_S, map_app. cbn [map Nat.add]. rewrite sum_values_snoc, IH.
    unfold Source.calculate_emission_for_year. rewrite Hunpinned. cbn [andb].
    destruct (Z.ltb_spec (Source.acquisition_year source + Z.of_nat n)
                         (Source.acquisition_year source)); [lia|].
    destruct (Z.leb_spec (Source.acquisition_year source + Source.lifetime source)
                         (Source.acquisition_year source + Z.of_nat n)); cbn [orb].
    + rewrite !Z.min_r by lia. ring.
    + rewrite !Z.min_l by lia.
      replace (Z.of_nat (S n)) with (Z.of_nat n + 1) by lia.
      rewrite inject_Z_plus. ring.
Qed.

End LifetimeSum.

(** X6. For a source that is not pinned to a year, the emissions of the
    years from the acquisition year to the current year (the defaults of
    [calculate_emissions_for_years]) add up, in exact arithmetic, to
    [Source.total_emission]. *)
Theorem yearly_emissions_sum_to_total_emission
        (source : Source.t) (current_year : Z) :
  truthy (Source.year source) = false ->
  0 <= Source.lifetime source ->
  Derived.sum_values (Views.calculate_emissions_for_years
                Rounding.exact source None None current_year)
  == Source.total_emission Rounding.exact source current_year.
Proof.
  intros Hu Hl. unfold Views.calculate_emissions_for_years, range.
  rewrite dict_of_years, (sum_first_years source Hu Hl).
  unfold Source.total_emission, Source.annual_emission, dmul, Rounding.exact.
  replace (Z.min (Z.of_nat (Z.to_nat (current_year + 1 - Source.acquisition_year source)))
                 (Source.lifetime source))
    with (Z.max 0 (Z.min (current_year - Source.acquisition_year source + 1)
                         (Source.lifetime source))) by lia.
  reflexivity.
Qed.

Lemma yearly_emissions_sum_to_total_emission_witness :
  Derived.sum_values (Views.calculate_emissions_for_years
                Rounding.exact Scenario.source None None 2025)
  == Source.total_emission Rounding.exact Scenario.source 2025.
Proof.
  apply yearly_emissions_sum_to_total_emission; [reflexivity | simpl; lia].
Defined.

(** ** The total emission of a source *)

Lemma decimal28_zero (q : Q) : Qnum q = 0 -> Rounding.decimal28 q = 0%Q.
Proof.
  intros H. unfold Rounding.decimal28, Rounding.round_sig. rewrite H. reflexivity.
Qed.

(** X7. [Source.total_emission] is 0, in Python's decimal arithmetic,
    for a source acquired after the current year; and once the lifetime
    has elapsed it is the rounded product of the annual emission and the
    lifetime and no longer depends on the current year. *)
Theorem total_emission_bounds
        (rd : Q -> Q) (self : Source.t) (current_year later_year : Z) :
  (current_year < Source.acquisition_year self ->
   Source.total_emission Rounding.decimal28 self current_year = 0%Q)
  /\ (0 <= Source.lifetime self ->
      Source.acquisition_year self + Source.lifetime self - 1 <= current_year ->
      current_year <= later_year ->
      Source.total_emission rd self current_year
      = rd (Source.annual_emission rd self * inject_Z (Source.lifetime self))%Q
      /\ Source.total_emission rd self later_year
         = Source.total_emission rd self current_year).
Proof.
  split.
  - intros H. unfold Source.total_emission.
    replace (Z.max 0 (Z.min (current_year - Source.acquisition_year self + 1)
                            (Source.lifetime self))) with 0 by lia.
    unfold dmul at 1. apply decimal28_zero. simpl. lia.
  - intros Hl Hc Hlater. unfold Source.total_emission, Source.annual_emission.
    replace (Z.max 0 (Z.min (current_year - Source.acquisition_year self + 1)
                            (Source.lifetime self)))
      with (Source.lifetime self) by lia.
    replace (Z.max 0 (Z.min (later_year - Source.acquisition_year self + 1)
                            (Source.lifetime self)))
      with (Source.lifetime self) by lia.
    split; reflexivity.
Qed.

Lemma total_emission_bounds_witness :
  Source.total_emission Rounding.decimal28 Scenario.source 2020 = 0%Q
  /\ Source.total_emission Rounding.decimal28 Scenario.source 2040
     = Source.total_emission Rounding.decimal28 Scenario.source 2027.
Proof.
  destruct (total_emission_bounds Rounding.decimal28 Scenario.source 2020 2020)
    as [H1 _].
  destruct (total_emission_bounds Rounding.decimal28 Scenario.source 2027 2040)
    as [_ H2].
  split.
  - apply H1. simpl. lia.
  - apply H2; simpl; lia.
Defined.

(** X8. [calculate_source_emissions] never raises: outside the lifetime
    window it returns 0 without dividing, and inside the window the
    lifetime it divides by is positive.  Inside the window the result
    is, in exact arithmetic, the annual emission times the number of
    years elapsed (at most the lifetime) over the lifetime: the annual
    emission itself only once the whole lifetime has elapsed. *)
Theorem calculate_source_emissions_result
        (rd : Q -> Q) (source : Source.t) (year current_year : Z) :
  (exists v, Views.calculate_source_emissions rd source year current_year = Ok v)
  /\ (Spec.in_lifetime source year = false ->
      Views.calculate_source_emissions rd source year current_year = Ok 0%Q)
  /\ (Spec.in_lifetime source year = true ->
      exists v,
        Views.calculate_source_emissions Rounding.exact source year current_year = Ok v
        /\ v == Source.annual_emission Rounding.exact source
                * inject_Z (Z.max 0 (Z.min (current_year
                                            - Source.acquisition_year source + 1)
                                           (Source.lifetime source)))
                / inject_Z (Source.lifetime source)
        /\ (Source.acquisition_year source + Source.lifetime source - 1
            <= current_year ->
            v == Source.annual_emission Rounding.exact source)).
Proof.
  unfold Views.calculate_source_emissions, Spec.in_lifetime.
  split; [|split].
  - compare_years; try (eexists; reflexivity).
    unfold ddiv. rewrite inject_Z_nonzero by lia. eexists. reflexivity.
  - compare_years; try reflexivity; discriminate.
  - compare_years; try discriminate. intros _.
    unfold ddiv. rewrite inject_Z_nonzero by lia.
    eexists. split; [reflexivity|].
    unfold Source.total_emission, Source.annual_emission, dmul, Rounding.exact.
    split; [reflexivity|].
    intros Hc.
    replace (Z.max 0 (Z.min (current_year - Source.acquisition_year source + 1)
                            (Source.lifetime source)))
      with (Source.lifetime source) by lia.
    field. intros E. unfold Qeq in E. simpl in E. lia.
Qed.

Lemma calculate_source_emissions_result_witness :
  exists v,
    Views.calculate_source_emissions Rounding.exact Scenario.source 2024 2030 = Ok v
    /\ v == Source.annual_emission Rounding.exact Scenario.source.
Proof.
  destruct (calculate_source_emissions_result
              Rounding.exact Scenario.source 2024 2030) as [_ [_ H]].
  destruct (H eq_refl) as [v [H1 [_ H3]]].
  exists v. split; [exact H1|]. apply H3. simpl. lia.
Defined.

(** ** The total of a report without a year *)

Lemma fold_totals (now : Z) (rows : list Source.t) (acc acc' : Q) :
  Forall (Derived.acquired_by now) rows ->
  acc == acc' ->
  fold_left (fun a s =>
               (a + Source.emission_factor s * Source.value s
                    * inject_Z (Source.quantity s)
                    * inject_Z (Z.min (Source.lifetime s)
                                      (now - Source.acquisition_year s + 1)))%Q)
            rows acc
  == fold_left (fun a s => (a + Source.total_emission Rounding.exact s now)%Q)
               rows acc'.
Proof.
  intros H. revert acc acc'. induction H as [|s rows [H1 H2] _ IH]; intros acc acc' E.
  - exact E.
  - cbn [fold_left]. apply IH. rewrite E.
    unfold Source.total_emission, dmul, Rounding.exact.
    replace (Z.max 0 (Z.min (now - Source.acquisition_year s + 1) (Source.lifetime s)))
      with (Z.min (Source.lifetime s) (now - Source.acquisition_year s + 1)) by lia.
    reflexivity.
Qed.

(** X9. When every source of a report was acquired by the year after
    the current one, [Report.total_emissions()] is the sum of the
    [total_emission] of its sources (exact arithmetic).  The database
    expression has no lower bound at 0, though: a report whose only
    source has a positive emission factor, value, quantity and lifetime
    and is acquired later than that has a negative total, where the
    [total_emission] of the source is 0. *)
Theorem total_emissions_lifetime
        (d : Report.db) (report_id now : Z) (s : Source.t) :
  (Forall (Derived.acquired_by now) (Report.sources_of d report_id) ->
   Report.total_emissions d report_id now None
   == Derived.sum_of_totals now (Report.sources_of d report_id))
  /\ (Report.sources_of d report_id = [s] ->
      (0 < Source.emission_factor s)%Q -> (0 < Source.value s)%Q ->
      0 < Source.quantity s -> 0 < Source.lifetime s ->
      now + 1 < Source.acquisition_year s ->
      (Report.total_emissions d report_id now None < 0)%Q
      /\ Source.total_emission Rounding.exact s now == 0).
Proof.
  split.
  - intros H. unfold Report.total_emissions, Derived.sum_of_totals.
    rewrite or_zero_eq. unfold Report.Sum.
    destruct (Report.sources_of d report_id) as [|s0 l] eqn:Es; [reflexivity|].
    apply fold_totals; [exact H | reflexivity].
  - intros Hs Hef Hv Hq Hl Ha. split.
    + unfold Report.total_emissions. rewrite or_zero_eq, Hs.
      unfold Report.Sum. cbn [fold_left]. rewrite Qplus_0_l.
      rewrite Z.min_r by lia.
      assert (Hp : (0 < Source.emission_factor s * Source.value s
                        * inject_Z (Source.quantity s))%Q).
      { apply Qmult_lt_0_compat; [apply Qmult_lt_0_compat; assumption|].
        change 0%Q with (inject_Z 0). rewrite <- Zlt_Qlt. exact Hq. }
      assert (Hn : (inject_Z (now - Source.acquisition_year s + 1) < 0)%Q).
      { change 0%Q with (inject_Z 0). rewrite <- Zlt_Qlt. lia. }
      set (a := (Source.emission_factor s * Source.value s
                 * inject_Z (Source.quantity s))%Q) in *.
      set (b := inject_Z (now - Source.acquisition_year s + 1)) in *.
      apply (Qmult_lt_l b 0 a Hp) in Hn. rewrite Qmult_0_r in Hn. exact Hn.
    + unfold Source.total_emission, dmul, Rounding.exact.
      replace (Z.max 0 (Z.min (now - Source.acquisition_year s + 1) (Source.lifetime s)))
        with 0 by lia.
      ring.
Qed.

Lemma total_emissions_lifetime_witness :
  Report.total_emissions Scenario.pinned_db 1 2025 None
  == Derived.sum_of_totals 2025 (Report.sources_of Scenario.pinned_db 1)
  /\ (Report.total_emissions Scenario.pinned_db 1 2020 None < 0)%Q.
Proof.
  split.
  - apply (proj1 (total_emissions_lifetime Scenario.pinned_db 1 2025
                                           Scenario.pinned_source)).
    repeat constructor; simpl; lia.
  - apply (proj2 (total_emissions_lifetime Scenario.pinned_db 1 2020
                                           Scenario.pinned_source));
      try reflexivity; simpl; lia.
Defined.

(** ** Comparing two years of a report *)

(** X10. [compare_emissions] never raises: the division by the total of
    the first year is guarded, and the percentage is 0 when that total
    is 0.  The dict carries the two totals of [total_emissions]; and in
    Python's decimal arithmetic a year compared with itself gives the
    difference 0 and the percentage 0. *)
Theorem compare_emissions_guarded
        (rd : Q -> Q) (d : Report.db) (report_id now y1 y2 : Z) :
  (exists c,
      Report.compare_emissions rd d report_id now y1 y2 = Ok c
      /\ Report.emissions1 c = Report.total_emissions d report_id now (Some y1)
      /\ Report.emissions2 c = Report.total_emissions d report_id now (Some y2)
      /\ Report.difference c = rd (Report.emissions2 c - Report.emissions1 c)%Q
      /\ (Report.emissions1 c == 0 -> Report.percentage_change c = 0%Q))
  /\ (exists c,
         Report.compare_emissions Rounding.decimal28 d report_id now y1 y1 = Ok c
         /\ Report.difference c = 0%Q
         /\ Report.percentage_change c = 0%Q).
Proof.
  split.
  - unfold Report.compare_emissions.
    destruct (Qeq_bool (Report.total_emissions d report_id now (Some y1)) 0) eqn:E.
    + cbn [bind]. eexists. split; [reflexivity|]. repeat split.
    + unfold ddiv. rewrite E. cbn [bind]. eexists. split; [reflexivity|].
      split; [reflexivity|]. split; [reflexivity|]. split; [reflexivity|].
      cbn [Report.emissions1]. intros H. apply Qeq_bool_iff in H. congruence.
  - unfold Report.compare_emissions.
    set (e := Report.total_emissions d report_id now (Some y1)).
    assert (Hd : dsub Rounding.decimal28 e e = 0%Q).
    { unfold dsub. apply decimal28_zero. simpl. ring. }
    rewrite Hd.
    destruct (Qeq_bool e 0) eqn:E.
    + cbn [bind]. eexists. repeat split.
    + unfold ddiv. rewrite E. cbn [bind]. eexists. split; [reflexivity|].
      split; [reflexivity|]. cbn [Report.percentage_change].
      unfold dmul.
      replace (Rounding.decimal28 (0 / e)) with 0%Q
        by (symmetry; apply decimal28_zero; reflexivity).
      apply decimal28_zero. reflexivity.
Qed.

(** ** Saving and deleting sources *)

Section Store.
Variable rf : Q -> Q.

Lemma cached_update_other (d d' : Report.db) (instance : Source.t) (other now : Z) :
  Report.update_report_emissions rf d instance now = Ok d' ->
  other <> Source.report instance ->
  Report.cached d' other = Report.cached d other /\ Report.sources d' = Report.sources d.
Proof.
  rewrite update_report_emissions_rows.
  destruct (existsb _ (Report.reports d)); [|discriminate].
  intros H Hne. injection H as <-. split; [|reflexivity].
  unfold Report.cached. cbn [Report.reports].
  induction (Report.reports d) as [|r rows IH]; [reflexivity|].
  cbn [map find].
  destruct (Z.eqb_spec (Report.id r) (Source.report instance)) as [E|E].
  - cbn [Report.id].
    destruct (Z.eqb_spec (Report.id r) other) as [E'|_]; [congruence|]. exact IH.
  - destruct (Report.id r =? other); [reflexivity | exact IH].
Qed.

End Store.

(** X11. Saving or deleting a source touches the cached total of the
    report the instance refers to and of no other report: the cached
    value of every other report is what it was before. *)
Theorem save_delete_leave_other_reports
        (rf : Q -> Q) (valid : Report.db -> Source.t -> bool)
        (d d' : Report.db) (instance : Source.t) (now other : Z) :
  other <> Source.report instance ->
  (Report.save_source rf valid d instance now = Ok d' ->
   Report.cached d' other = Report.cached d other)
  /\ (Report.delete_source rf d instance now = Ok d' ->
      Report.cached d' other = Report.cached d other).
Proof.
  intros Hne. split.
  - unfold Report.save_source.
    destruct (Report.full_clean valid d instance); [|discriminate]. cbn [bind].
    intros H. apply (cached_update_other rf _ _ _ other) in H; [|exact Hne].
    destruct H as [H _]. exact H.
  - unfold Report.delete_source.
    intros H. apply (cached_update_other rf _ _ _ other) in H; [|exact Hne].
    destruct H as [H _]. exact H.
Qed.

Lemma save_delete_leave_other_reports_witness :
  exists d',
    Report.save_source Rounding.binary64 Scenario.field_checks
                       Scenario.empty_db Scenario.source 2024 = Ok d'
    /\ Report.cached d' 2 = Report.cached Scenario.empty_db 2.
Proof.
  destruct (Report.save_source Rounding.binary64 Scenario.field_checks
                               Scenario.empty_db Scenario.source 2024)
    as [d'|e] eqn:E; [|vm_compute in E; discriminate E].
  exists d'. split; [reflexivity|].
  apply (proj1 (save_delete_leave_other_reports
                  Rounding.binary64 Scenario.field_checks Scenario.empty_db d'
                  Scenario.source 2024 2 ltac:(simpl; lia)) E).
Defined.

Lemma find_replaced (instance : Source.t) (rows : list Source.t) :
  existsb (fun s => Source.id s =? Source.id instance) rows = true ->
  find (fun s => Source.id s =? Source.id instance)
       (map (fun s => if Source.id s =? Source.id instance then instance else s) rows)
  = Some instance.
Proof.
  induction rows as [|s rows IH]; simpl; [discriminate|].
  destruct (Source.id s =? Source.id instance) eqn:E; simpl.
  - intros _. rewrite Z.eqb_refl. reflexivity.
  - intros H. rewrite E. apply IH. exact H.
Qed.

Lemma find_appended (instance : Source.t) (rows : list Source.t) :
  existsb (fun s => Source.id s =? Source.id instance) rows = false ->
  find (fun s => Source.id s =? Source.id instance) (rows ++ [instance])
  = Some instance.
Proof.
  induction rows as [|s rows IH]; simpl.
  - intros _. rewrite Z.eqb_refl. reflexivity.
  - destruct (Source.id s =? Source.id instance); simpl; [discriminate | exact IH].
Qed.

Lemma find_other_replaced (instance : Source.t) (id : Z) (rows : list Source.t) :
  id <> Source.id instance ->
  find (fun s => Source.id s =? id)
       (map (fun s => if Source.id s =? Source.id instance then instance else s) rows)
  = find (fun s => Source.id s =? id) rows.
Proof.
  intros Hne. induction rows as [|s rows IH]; simpl; [reflexivity|].
  destruct (Z.eqb_spec (Source.id s) (Source.id instance)) as [E|E].
  - destruct (Z.eqb_spec (Source.id instance) id) as [E'|_]; [congruence|].
    destruct (Z.eqb_spec (Source.id s) id) as [E'|_]; [congruence|]. exact IH.
  - destruct (Source.id s =? id); [reflexivity | exact IH].
Qed.

Lemma find_other_appended (instance : Source.t) (id : Z) (rows : list Source.t) :
  id <> Source.id instance ->
  find (fun s => Source.id s =? id) (rows ++ [instance])
  = find (fun s => Source.id s =? id) rows.
Proof.
  intros Hne. induction rows as [|s rows IH]; simpl.
  - destruct (Z.eqb_spec (Source.id instance) id) as [E|_]; [congruence | reflexivity].
  - destruct (Source.id s =? id); [reflexivity | exact IH].
Qed.

Lemma update_keeps_sources (rf : Q -> Q) (d d' : Report.db) (instance : Source.t)
      (now : Z) :
  Report.update_report_emissions rf d instance now = Ok d' ->
  Report.sources d' = Report.sources d.
Proof.
  rewrite update_report_emissions_rows.
  destruct (existsb _ (Report.reports d)); [|discriminate].
  intros H. injection H as <-. reflexivity.
Qed.

(** X12. After a successful save the table returns the saved instance
    under its primary key, has the rows of all other keys as before, and
    has grown by one row exactly when the key was new; a save that is
    rejected by [clean], or by the checks of the fields, raises
    [ValidationError]. *)
Theorem save_source_then_get
        (rf : Q -> Q) (valid : Report.db -> Source.t -> bool)
        (d d' : Report.db) (instance : Source.t) (now id : Z) :
  (Report.save_source rf valid d instance now = Ok d' ->
   Derived.get_source d' (Source.id instance) = Some instance
   /\ (id <> Source.id instance -> Derived.get_source d' id = Derived.get_source d id)
   /\ length (Report.sources d') =
      (if existsb (fun s => Source.id s =? Source.id instance) (Report.sources d)
       then length (Report.sources d)
       else S (length (Report.sources d))))
  /\ (Source.clean instance <> Ok tt ->
      Report.save_source rf valid d instance now = Raise ValidationError)
  /\ (valid d instance = false ->
      Report.save_source rf valid d instance now = Raise ValidationError).
Proof.
  split; [|split].
  - unfold Report.save_source.
    destruct (Report.full_clean valid d instance); [|discriminate]. cbn [bind].
    intros H. apply update_keeps_sources in H. cbn [Report.sources] in H.
    unfold Derived.get_source. rewrite H.
    destruct (existsb (fun s => Source.id s =? Source.id instance) (Report.sources d))
      eqn:E.
    + split; [apply find_replaced; exact E|]. split.
      * intros Hne. apply find_other_replaced. exact Hne.
      * apply length_map.
    + split; [apply find_appended; exact E|]. split.
      * intros Hne. apply find_other_appended. exact Hne.
      * rewrite length_app. simpl. lia.
  - intros H. unfold Report.save_source, Report.full_clean, Source.clean in *.
    destruct (valid d instance); [|reflexivity].
    destruct (Qle_bool (Source.value instance) 0); [reflexivity|].
    destruct (Source.quantity instance <=? 0); [reflexivity|].
    match goal with
    | |- context [if ?c then Raise ValidationError else Ok tt] => destruct c
    end; [reflexivity | congruence].
  - intros H. unfold Report.save_source, Report.full_clean. rewrite H. reflexivity.
Qed.

Lemma save_source_then_get_witness :
  exists d',
    Report.save_source Rounding.binary64 Scenario.field_checks
                       Scenario.empty_db Scenario.source 2024 = Ok d'
    /\ Derived.get_source d' 1 = Some Scenario.source.
Proof.
  destruct (Report.save_source Rounding.binary64 Scenario.field_checks
                               Scenario.empty_db Scenario.source 2024)
    as [d'|e] eqn:E; [|vm_compute in E; discriminate E].
  exists d'. split; [reflexivity|].
  exact (proj1 (proj1 (save_source_then_get
                         Rounding.binary64 Scenario.field_checks
                         Scenario.empty_db d' Scenario.source 2024 0) E)).
Defined.

Lemma filter_fresh (instance : Source.t) (rows : list Source.t) :
  existsb (fun s => Source.id s =? Source.id instance) rows = false ->
  filter (fun s => negb (Source.id s =? Source.id instance)) (rows ++ [instance])
  = rows.
Proof.
  induction rows as [|s rows IH]; simpl.
  - intros _. rewrite Z.eqb_refl. reflexivity.
  - destruct (Source.id s =? Source.id instance); simpl; [discriminate|].
    intros H. rewrite (IH H). reflexivity.
Qed.

(** X13. Creating a source and deleting it again restores the source
    table, and leaves the cached total of its report at the (float of
    the) total of the report as it was before the source was created. *)
Theorem create_then_delete
        (rf : Q -> Q) (valid : Report.db -> Source.t -> bool)
        (d d1 : Report.db) (instance : Source.t) (now : Z) :
  existsb (fun s => Source.id s =? Source.id instance) (Report.sources d) = false ->
  Report.save_source rf valid d instance now = Ok d1 ->
  exists d2,
    Report.delete_source rf d1 instance now = Ok d2
    /\ Report.sources d2 = Report.sources d
    /\ Report.cached d2 (Source.report instance)
       = Some (rf (Report.total_emissions d (Source.report instance) now None)).
Proof.
  intros Hfresh Hsave.
  unfold Report.save_source in Hsave.
  destruct (Report.full_clean valid d instance); [|discriminate].
  cbn [bind] in Hsave. rewrite Hfresh in Hsave.
  pose proof (update_keeps_sources rf _ _ _ _ Hsave) as Hs1. cbn [Report.sources] in Hs1.
  rewrite update_report_emissions_rows in Hsave. cbn [Report.reports] in Hsave.
  assert (Hex : existsb (fun r => Report.id r =? Source.report instance)
                        (Report.reports d) = true).
  { destruct (existsb _ (Report.reports d)); [reflexivity | discriminate]. }
  assert (Hex1 : existsb (fun r => Report.id r =? Source.report instance)
                         (Report.reports d1) = true).
  { rewrite Hex in Hsave. injection Hsave as <-. cbn [Report.reports].
    clear - Hex. induction (Report.reports d) as [|r rows IH]; [discriminate|].
    cbn [map existsb] in *.
    destruct (Z.eqb_spec (Report.id r) (Source.report instance)) as [E|E].
    - cbn [Report.id]. rewrite E, Z.eqb_refl. reflexivity.
    - destruct (Z.eqb_spec (Report.id r) (Source.report instance)); [contradiction|].
      apply IH. exact Hex. }
  unfold Report.delete_source. rewrite Hs1, (filter_fresh instance _ Hfresh).
  destruct (update_report_emissions_fresh
              rf (Report.mk_db (Report.sources d) (Report.reports d1))
              instance now Hex1) as [d2 [H1 [H2 [H3 _]]]].
  exists d2. split; [exact H1|]. split; [exact H2|].
  rewrite H3. f_equal. f_equal.
  unfold Report.total_emissions, Report.sources_of. rewrite H2. reflexivity.
Qed.

Lemma create_then_delete_witness :
  exists d1 d2,
    Report.save_source Rounding.binary64 Scenario.field_checks
                       Scenario.empty_db Scenario.source 2024 = Ok d1
    /\ Report.delete_source Rounding.binary64 d1 Scenario.source 2024 = Ok d2
    /\ Report.sources d2 = Report.sources Scenario.empty_db.
Proof.
  destruct (Report.save_source Rounding.binary64 Scenario.field_checks
                               Scenario.empty_db Scenario.source 2024)
    as [d1|e] eqn:E; [|vm_compute in E; discriminate E].
  destruct (create_then_delete Rounding.binary64 Scenario.field_checks
                               Scenario.empty_db d1
                               Scenario.source 2024 eq_refl E) as [d2 [H1 [H2 _]]].
  exists d1, d2. split; [reflexivity|]. split; assumption.
Defined.





(** ** The order of a new modification *)

Lemma max_order_fold (table : list Modification.row) (self : Modification.row) :
  Modification.max_order table self = fold_left (Derived.max_step self) table None.
Proof. reflexivity. Qed.

Lemma max_step_some (self : Modification.row) (table : list Modification.row) (a : Z) :
  exists o, fold_left (Derived.max_step self) table (Some a) = Some o /\ a <= o.
Proof.
  revert a. induction table as [|r table IH]; intros a.
  - exists a. split; [reflexivity | lia].
  - cbn [fold_left]. unfold Derived.max_step at 2. destruct (Derived.same_group r self).
    + destruct (IH (Z.max a (Modification.order (Modification.fields r))))
        as [o [Ho Hle]].
      exists o. split; [exact Ho | lia].
    + apply IH.
Qed.

Lemma max_step_member (self : Modification.row) (table : list Modification.row)
      (acc : option Z) (r : Modification.row) :
  In r table -> Derived.same_group r self = true ->
  exists o, fold_left (Derived.max_step self) table acc = Some o
            /\ Modification.order (Modification.fields r) <= o.
Proof.
  revert acc. induction table as [|r0 table IH]; intros acc Hin Hg; [destruct Hin|].
  cbn [fold_left]. destruct Hin as [-> | Hin].
  - unfold Derived.max_step at 2. rewrite Hg. destruct acc as [a|].
    + destruct (max_step_some self table
                  (Z.max a (Modification.order (Modification.fields r))))
        as [o [Ho Hle]].
      exists o. split; [exact Ho | lia].
    + destruct (max_step_some self table (Modification.order (Modification.fields r)))
        as [o [Ho Hle]].
      exists o. split; [exact Ho | lia].
  - apply IH; assumption.
Qed.

Lemma max_step_nonneg (self : Modification.row) (table : list Modification.row)
      (acc : option Z) (o : Z) :
  Forall (fun r => 0 <= Modification.order (Modification.fields r)) table ->
  (forall a, acc = Some a -> 0 <= a) ->
  fold_left (Derived.max_step self) table acc = Some o -> 0 <= o.
Proof.
  intros H. revert acc. induction H as [|r table Hr _ IH]; intros acc Hacc.
  - simpl. intros E. apply Hacc. exact E.
  - cbn [fold_left]. apply IH. intros a. unfold Derived.max_step.
    destruct (Derived.same_group r self); [|apply Hacc].
    destruct acc as [a0|]; intros E; injection E as <-.
    + specialize (Hacc a0 eq_refl). lia.
    + exact Hr.
Qed.

Lemma max_step_none (self : Modification.row) (table : list Modification.row) :
  (forall r, In r table -> Derived.same_group r self = false) ->
  fold_left (Derived.max_step self) table None = None.
Proof.
  induction table as [|r table IH]; intros H; [reflexivity|].
  cbn [fold_left]. unfold Derived.max_step at 2.
  rewrite (H r (or_introl eq_refl)). apply IH.
  intros r' Hin. apply H. right. exact Hin.
Qed.

Lemma assign_order_above (table : list Modification.row) (self r : Modification.row) :
  Modification.order (Modification.fields self) = 0 ->
  In r table -> Derived.same_group r self = true ->
  Modification.order (Modification.fields r)
  < Modification.order (Modification.fields (Modification.assign_order table self)).
Proof.
  intros H0 Hin Hg. unfold Modification.assign_order. rewrite H0. cbn [Z.eqb].
  destruct (max_step_member self table None r Hin Hg) as [o [Ho Hle]].
  rewrite max_order_fold, Ho. cbn [Modification.fields Modification.order].
  destruct (Z.eqb_spec o 0); lia.
Qed.

(** X15. A modification saved without an order gets an order above
    every order already used for its strategy, source and start year
    (1 when there is none, never less than 1 when the orders in the
    table are not negative) and keeps its strategy, source and start
    year, so the row to insert never collides with a row of the table
    on (strategy, source, start year, order); a supplied order is kept
    as it is. *)
Theorem save_assigns_fresh_order
        (table : list Modification.row) (self : Modification.row) :
  (Modification.order (Modification.fields self) = 0 ->
   let saved := Modification.assign_order table self in
   (forall r, In r table -> Derived.same_group r self = true ->
              Modification.order (Modification.fields r)
              < Modification.order (Modification.fields saved))
   /\ (Forall (fun r => 0 <= Modification.order (Modification.fields r)) table ->
       1 <= Modification.order (Modification.fields saved))
   /\ ((forall r, In r table -> Derived.same_group r self = false) ->
       Modification.order (Modification.fields saved) = 1)
   /\ Derived.same_group saved self = true
   /\ ~ In (Derived.unique_key saved) (map Derived.unique_key table))
  /\ (Modification.order (Modification.fields self) <> 0 ->
      Modification.assign_order table self = self).
Proof.
  split.
  - intros H0 saved.
    assert (Habove : forall r, In r table -> Derived.same_group r self = true ->
                               Modification.order (Modification.fields r)
                               < Modification.order (Modification.fields saved)).
    { intros r Hin Hg. apply assign_order_above; assumption. }
    assert (Hgroup : Derived.same_group saved self = true).
    { subst saved. unfold Modification.assign_order. rewrite H0. cbn [Z.eqb].
      unfold Derived.same_group. cbn [Modification.fields Modification.reduction_strategy
                                Modification.source Modification.start_year].
      rewrite !Z.eqb_refl. reflexivity. }
    split; [exact Habove|]. split; [|split; [|split; [exact Hgroup|]]].
    + intros Hnn. subst saved. unfold Modification.assign_order. rewrite H0.
      cbn [Z.eqb Modification.fields Modification.order].
      destruct (Modification.max_order table self) as [o|] eqn:Eo; [|lia].
      destruct (Z.eqb_spec o 0); [lia|].
      rewrite max_order_fold in Eo.
      pose proof (max_step_nonneg self table None o Hnn
                                  ltac:(intros a E; discriminate E) Eo).
      lia.
    + intros Hnone. subst saved. unfold Modification.assign_order. rewrite H0.
      cbn [Z.eqb Modification.fields Modification.order].
      assert (Hm : Modification.max_order table self = None)
        by (rewrite max_order_fold; apply max_step_none; exact Hnone).
      rewrite Hm. reflexivity.
    + intros Hk.
      apply in_map_iff in Hk. destruct Hk as [r [Hr Hin]].
      unfold Derived.unique_key in Hr. injection Hr as E1 E2 E3 E4.
      assert (Hg : Derived.same_group r self = true).
      { unfold Derived.same_group in Hgroup |- *.
        apply andb_true_iff in Hgroup. destruct Hgroup as [Hg12 Hg3].
        apply andb_true_iff in Hg12. destruct Hg12 as [Hg1 Hg2].
        apply Z.eqb_eq in Hg1, Hg2, Hg3.
        rewrite E1, E2, E3, Hg1, Hg2, Hg3, !Z.eqb_refl. reflexivity. }
      pose proof (Habove r Hin Hg). lia.
  - intros Hne. unfold Modification.assign_order.
    destruct (Z.eqb_spec (Modification.order (Modification.fields self)) 0);
      [contradiction | reflexivity].
Qed.

(** The reduction of the scenario saved twice, without an order, for
    the strategy 7: the rows get the orders 1 and 2. *)
Lemma save_assigns_fresh_order_witness :
  let self := Modification.mk_row 7 (Modification.mk 1 "VALUE" (9 # 10) 0 2024
                                                     None false None 2024) in
  let first := Modification.assign_order [] self in
  let second := Modification.assign_order [first] self in
  Derived.unique_key first = (7, 1, 2024, 1)
  /\ Derived.unique_key second = (7, 1, 2024, 2)
  /\ ~ In (Derived.unique_key second) (map Derived.unique_key [first]).
Proof.
  intros self first second. split; [reflexivity|]. split; [reflexivity|].
  destruct (save_assigns_fresh_order [first] self) as [H _].
  destruct (H eq_refl) as [_ [_ [_ [_ Hk]]]]. exact Hk.
Defined.

(** ** The cached modified emission *)

(** X16. [get_modified_emission] computes once: after a call that
    returned, every later call returns the same value and leaves the
    instance as it is, whatever its source has become in the meantime;
    a call that raises caches nothing. *)
Theorem get_modified_emission_computes_once
        (rd : Q -> Q) (self self' : Modification.instance)
        (src src' : Source.t) (v : Q) :
  Modification.get_modified_emission rd self src = Ok (self', v) ->
  Modification.get_modified_emission rd self' src' = Ok (self', v)
  /\ Modification.self_fields self' = Modification.self_fields self
  /\ (Modification._modified_emission self = None ->
      Modification.calculate_modified_emission
        rd (Modification.self_fields self) src None = Ok v).
Proof.
  unfold Modification.get_modified_emission.
  destruct (Modification._modified_emission self) as [c|] eqn:E.
  - intros H. injection H as <- <-. rewrite E.
    split; [reflexivity|]. split; [reflexivity|]. discriminate.
  - destruct (Modification.calculate_modified_emission
                rd (Modification.self_fields self) src None) as [x|e];
      cbn [bind]; [|discriminate].
    intros H. injection H as <- <-. cbn.
    split; [reflexivity|]. split; reflexivity.
Qed.

Lemma get_modified_emission_computes_once_witness :
  exists self',
    Modification.get_modified_emission
      Rounding.decimal28 (Modification.mk_instance (Scenario.bounded_reduction 2025) None)
      Scenario.source = Ok (self', 90%Q)
    /\ Modification.get_modified_emission
         Rounding.decimal28 self' Scenario.small_source = Ok (self', 90%Q).
Proof.
  eexists. split; [vm_compute; reflexivity|].
  apply (get_modified_emission_computes_once
           Rounding.decimal28
           (Modification.mk_instance (Scenario.bounded_reduction 2025) None)
           _ Scenario.source Scenario.small_source 90%Q).
  vm_compute. reflexivity.
Defined.

(** ** The modification pipeline *)

(** X17. [calculate_modified_emission] raises a [ValidationError]
    exactly when the modification type is neither VALUE nor EF, whatever
    the other fields, the source and the base. *)
Theorem calculate_modified_emission_unknown_type
        (rd : Q -> Q) (self : Modification.t) (src : Source.t)
        (base_emission : option Q) :
  Modification.calculate_modified_emission rd self src base_emission
  = Raise ValidationError
  <-> (Modification.modification_type self <> "VALUE"%string
       /\ Modification.modification_type self <> "EF"%string).
Proof.
  unfold Modification.calculate_modified_emission.
  destruct (String.eqb_spec (Modification.modification_type self) "VALUE") as [E1|E1].
  - split; [|intros [H _]; contradiction].
    intros H. exfalso.
    destruct (Modification.is_progressive self); [|discriminate H].
    unfold Modification.current_value, ddiv in H.
    destruct (Modification.end_year self); [|discriminate H].
    destruct (Qeq_bool (inject_Z _) 0) in H.
    + destruct (Qeq_bool _ 0) in H; discriminate H.
    + cbn [bind] in H.
      destruct (Modification.target_value self); [|discriminate H].
      cbn [bind] in H.
      destruct (Qeq_bool (Source.value src) 0) in H; [|discriminate H].
      destruct (Qeq_bool _ 0) in H; discriminate H.
  - destruct (String.eqb_spec (Modification.modification_type self) "EF") as [E2|E2].
    + split; [|intros [_ H]; contradiction].
      intros H. exfalso. unfold ddiv in H.
      destruct (Qeq_bool (Source.emission_factor src) 0) in H; [|discriminate H].
      destruct (Qeq_bool _ 0) in H; discriminate H.
    + split; [intros _; split; assumption | reflexivity].
Qed.

(** X18. An EF modification replaces the emission factor: applied to
    the emission of an active, unpinned source it gives, in exact
    arithmetic, [value * source.value * quantity].  When the emission
    factor of the source is 0 it never returns: it raises
    [InvalidOperation] for a base of 0 and [DivisionByZero] otherwise. *)
Theorem ef_modification_replaces_factor
        (rd : Q -> Q) (self : Modification.t) (src : Source.t) (base : Q) :
  Modification.modification_type self = "EF"%string ->
  (~ Source.emission_factor src == 0 ->
   truthy (Source.year src) = false ->
   Spec.in_lifetime src (Modification.calculation_year self) = true ->
   exists v,
     Modification.calculate_modified_emission Rounding.exact self src None = Ok v
     /\ v == Modification.value self * Source.value src
             * inject_Z (Source.quantity src))
  /\ (Source.emission_factor src == 0 ->
      Modification.calculate_modified_emission rd self src (Some base)
      = Raise (if Qeq_bool base 0 then InvalidOperation else DivisionByZero)).
Proof.
  intros Hty. unfold Modification.calculate_modified_emission. rewrite Hty.
  cbn [String.eqb Ascii.eqb Bool.eqb]. split.
  - intros Hef Hpin Hlife. unfold ddiv.
    destruct (Qeq_bool (Source.emission_factor src) 0) eqn:E.
    + apply Qeq_bool_iff in E. contradiction.
    + cbn [bind]. eexists. split; [reflexivity|].
      unfold Source.calculate_emission_for_year. rewrite Hpin. cbn [andb].
      unfold Spec.in_lifetime in Hlife.
      apply andb_true_iff in Hlife. destruct Hlife as [H1 H2].
      apply Z.leb_le in H1. apply Z.ltb_lt in H2.
      destruct (Z.ltb_spec (Modification.calculation_year self)
                           (Source.acquisition_year src)); [lia|].
      destruct (Z.leb_spec (Source.acquisition_year src + Source.lifetime src)
                           (Modification.calculation_year self)); [lia|].
      cbn [orb]. unfold Source.annual_emission, dmul, Rounding.exact.
      field. exact Hef.
  - intros Hef. unfold ddiv.
    apply Qeq_bool_iff in Hef. rewrite Hef.
    destruct (Qeq_bool base 0); reflexivity.
Qed.

Lemma ef_modification_replaces_factor_witness :
  exists v,
    Modification.calculate_modified_emission
      Rounding.exact Scenario.ef_reduction Scenario.source None = Ok v
    /\ v == 900.
Proof.
  destruct (proj1 (ef_modification_replaces_factor
                     Rounding.exact Scenario.ef_reduction Scenario.source 0 eq_refl))
    as [v [H1 H2]]; try reflexivity.
  - intros H. discriminate H.
  - exists v. split; [exact H1|]. rewrite H2. reflexivity.
Defined.

(** ** Chains of value modifications *)

Lemma apply_strategy_product (source : Source.t) (year : Z)
      (modifications : list Modification.t) (base : Q) :
  Forall Derived.plain_value modifications ->
  exists v,
    Views.apply_strategy Rounding.exact source year modifications base = Ok v
    /\ v == base * Derived.started_product year modifications.
Proof.
  intros H. revert base. induction H as [|m mods [Hty Hp] _ IH]; intros base.
  - exists base. split; [reflexivity|]. simpl. ring.
  - unfold Views.apply_strategy. cbn [filter Derived.started_product fold_right].
    destruct (Modification.start_year m <=? year).
    + cbn [for_each]. unfold Modification.calculate_modified_emission.
      rewrite Hty, Hp. cbn [String.eqb Ascii.eqb Bool.eqb bind].
      destruct (IH (dmul Rounding.exact base (Modification.value m))) as [v [H1 H2]].
      exists v. split; [exact H1|]. rewrite H2.
      unfold dmul, Rounding.exact. fold (Derived.started_product year mods). ring.
    + destruct (IH base) as [v [H1 H2]]. exists v. split; [exact H1 | exact H2].
Qed.

Lemma started_product_perm (year : Z) (l l' : list Modification.t) :
  Permutation l l' -> Derived.started_product year l == Derived.started_product year l'.
Proof.
  induction 1 as [|m l l' _ IH|m m' l|l l' l'' _ IH1 _ IH2].
  - reflexivity.
  - cbn [Derived.started_product fold_right]. fold (Derived.started_product year l).
    fold (Derived.started_product year l').
    destruct (Modification.start_year m <=? year); [rewrite IH; reflexivity | exact IH].
  - cbn [Derived.started_product fold_right]. fold (Derived.started_product year l).
    destruct (Modification.start_year m <=? year);
      destruct (Modification.start_year m' <=? year); try reflexivity. ring.
  - rewrite IH1. exact IH2.
Qed.

(** X19. A chain of non-progressive VALUE modifications never raises
    and multiplies the base, in exact arithmetic, by the product of the
    values of the modifications that have started by the year; the
    order of the modifications therefore does not matter. *)
Theorem value_chain_is_a_product
        (source : Source.t) (year : Z) (modifications reordered : list Modification.t)
        (base : Q) :
  Forall Derived.plain_value modifications ->
  Permutation modifications reordered ->
  exists v v',
    Views.apply_strategy Rounding.exact source year modifications base = Ok v
    /\ Views.apply_strategy Rounding.exact source year reordered base = Ok v'
    /\ v == base * Derived.started_product year modifications
    /\ v == v'.
Proof.
  intros H Hperm.
  assert (H' : Forall Derived.plain_value reordered).
  { rewrite Forall_forall in *. intros m Hm. apply H.
    apply (Permutation_in _ (Permutation_sym Hperm)). exact Hm. }
  destruct (apply_strategy_product source year modifications base H) as [v [H1 H2]].
  destruct (apply_strategy_product source year reordered base H') as [v' [H3 H4]].
  exists v, v'. split; [exact H1|]. split; [exact H3|]. split; [exact H2|].
  rewrite H2, H4, (started_product_perm year _ _ Hperm). reflexivity.
Qed.

Lemma value_chain_is_a_product_witness :
  exists v v',
    Views.apply_strategy Rounding.exact Scenario.source 2030
                         [Scenario.reduction; Scenario.bounded_reduction 2030] 100
    = Ok v
    /\ Views.apply_strategy Rounding.exact Scenario.source 2030
                            [Scenario.bounded_reduction 2030; Scenario.reduction] 100
       = Ok v'
    /\ v == 81 /\ v == v'.
Proof.
  destruct (value_chain_is_a_product
              Scenario.source 2030
              [Scenario.reduction; Scenario.bounded_reduction 2030]
              [Scenario.bounded_reduction 2030; Scenario.reduction] 100)
    as [v [v' [H1 [H2 [H3 H4]]]]].
  - repeat constructor.
  - apply perm_swap.
  - exists v, v'. split; [exact H1|]. split; [exact H2|].
    split; [rewrite H3; reflexivity | exact H4].
Defined.

(** ** The projected total of a report *)

(** X20. When no modification of the strategies has started by the
    year, [projected_total_emissions] never raises and returns the
    total without strategies: the (rounded) running sum of
    [calculate_emission_for_year] over the sources. *)
Theorem projected_total_without_started_modifications
        (rd : Q -> Q) (sources : list Source.t)
        (reduction_strategies : list (Source.t -> list Modification.t)) (year : Z) :
  (forall strategy source m,
      In strategy reduction_strategies -> In m (strategy source) ->
      year < Modification.start_year m) ->
  Views.projected_total_emissions rd sources reduction_strategies year
  = Ok (fold_left (fun total source =>
                     rd (total + Source.calculate_emission_for_year rd source year)%Q)
                  sources 0%Q)
  /\ Views.projected_total_emissions rd sources reduction_strategies year
     = Views.projected_total_emissions rd sources [] year.
Proof.
  intros H.
  assert (Hs : forall source emission,
             for_each (fun emission strategy =>
                         Views.apply_strategy rd source year (strategy source) emission)
                      reduction_strategies emission = Ok emission).
  { intros source. induction reduction_strategies as [|st sts IH]; intros emission.
    - reflexivity.
    - cbn [for_each]. unfold Views.apply_strategy at 1.
      assert (Hf : filter (fun m => Modification.start_year m <=? year) (st source) = []).
      { assert (G : forall m, In m (st source) -> year < Modification.start_year m)
          by (intros m Hm; apply (H st source m); [left; reflexivity | exact Hm]).
        induction (st source) as [|m l IHl]; [reflexivity|].
        cbn [filter]. pose proof (G m (or_introl eq_refl)).
        destruct (Z.leb_spec (Modification.start_year m) year); [lia|].
        apply IHl. intros m' Hm'. apply G. right. exact Hm'. }
      rewrite Hf. cbn [for_each bind]. apply IH.
      intros strategy source' m Hin Hm. apply (H strategy source' m); [right|]; assumption. }
  assert (Hmain : forall total,
             for_each (fun total_emissions source =>
                         emission <-
                           for_each (fun emission strategy =>
                                       Views.apply_strategy rd source year
                                                            (strategy source) emission)
                                    reduction_strategies
                                    (Source.calculate_emission_for_year rd source year) ;;
                         Ok (dadd rd total_emissions emission))
                      sources total
             = Ok (fold_left (fun total source =>
                                rd (total + Source.calculate_emission_for_year
                                              rd source year)%Q)
                             sources total)).
  { induction sources as [|s l IH]; intros total; [reflexivity|].
    cbn [for_each fold_left]. rewrite Hs. cbn [bind]. apply IH. }
  split.
  - unfold Views.projected_total_emissions. apply Hmain.
  - unfold Views.projected_total_emissions. rewrite Hmain.
    clear Hmain Hs H. symmetry. generalize 0%Q.
    induction sources as [|s l IH]; intros total; [reflexivity|].
    cbn [for_each fold_left bind]. apply IH.
Qed.

Lemma projected_total_without_started_modifications_witness :
  Views.projected_total_emissions
    Rounding.decimal28 [Scenario.source; Scenario.small_source]
    [fun _ => [Scenario.reduction]] 2023
  = Views.projected_total_emissions
      Rounding.decimal28 [Scenario.source; Scenario.small_source] [] 2023.
Proof.
  apply (projected_total_without_started_modifications
           Rounding.decimal28 [Scenario.source; Scenario.small_source]
           [fun _ => [Scenario.reduction]] 2023).
  intros strategy source m [<- | []] [<- | []]. simpl. lia.
Defined.

(** ** The arrays of the reduction aggregator *)

Lemma update_masked_frame (f : Q -> Q) (xs : list Q) (mask : list bool) :
  length (Views.update_masked f xs mask) = length xs
  /\ forall i, nth_error mask i = Some false ->
               nth_error (Views.update_masked f xs mask) i = nth_error xs i.
Proof.
  revert mask. induction xs as [|x xs IH]; intros mask.
  - split; [reflexivity|]. intros i _. destruct mask; reflexivity.
  - destruct mask as [|b mask]; [split; [reflexivity | intros; reflexivity]|].
    cbn [Views.update_masked]. destruct (IH mask) as [IH1 IH2]. split.
    + simpl. rewrite IH1. reflexivity.
    + intros [|i] H; simpl in *.
      * injection H as ->. reflexivity.
      * apply IH2. exact H.
Qed.

Lemma combine_map_frame (F : Q * (Q * bool) -> Q) (xs efs : list Q) (mask : list bool) :
  (forall x ef, F (x, (ef, false)) = x) ->
  length efs = length xs -> length mask = length xs ->
  length (map F (combine xs (combine efs mask))) = length xs
  /\ forall i, nth_error mask i = Some false ->
               nth_error (map F (combine xs (combine efs mask))) i = nth_error xs i.
Proof.
  intros HF. revert efs mask. induction xs as [|x xs IH]; intros efs mask H1 H2.
  - split; [reflexivity|]. intros i _. destruct i; reflexivity.
  - destruct efs as [|ef efs]; [discriminate|].
    destruct mask as [|b mask]; [discriminate|].
    simpl in H1, H2. destruct (IH efs mask) as [IH1 IH2]; [lia | lia |].
    split.
    + simpl. rewrite IH1. reflexivity.
    + intros [|i] H; simpl in *.
      * injection H as ->. rewrite HF. reflexivity.
      * apply IH2. exact H.
Qed.

Section Frame.
Variables rd rf : Q -> Q.
Variable sources : list Source.t.
Variable year : Z.

Lemma mod_mask_unreached (m : Modification.t) (i : nat) (s : Source.t) :
  nth_error sources i = Some s -> Derived.unreached year m s ->
  nth_error (Views.mod_mask sources year m) i = Some false.
Proof.
  intros Hi Hu. unfold Views.mod_mask.
  rewrite nth_error_map, Hi. cbn. f_equal.
  destruct Hu as [Ha | Hne].
  - rewrite Ha. reflexivity.
  - destruct (Z.eqb_spec (Modification.source m) (Source.id s)); [contradiction|].
    apply andb_false_r.
Qed.

Lemma apply_to_emissions_frame (xs ys : list Q) (m : Modification.t) :
  length xs = length sources ->
  Views.apply_to_emissions rd rf sources year xs m = Ok ys ->
  length ys = length sources
  /\ forall i s, nth_error sources i = Some s -> Derived.unreached year m s ->
                 nth_error ys i = nth_error xs i.
Proof.
  intros Hlen. unfold Views.apply_to_emissions.
  destruct (Modification.is_progressive m).
  - destruct (Views.progressive_emission rd rf sources year m) as [x|e];
      cbn [bind]; [|discriminate].
    intros H. injection H as <-.
    destruct (update_masked_frame (fun _ => x) xs (Views.mod_mask sources year m))
      as [H1 H2].
    split; [rewrite H1; exact Hlen|].
    intros i s Hi Hu. apply H2. apply (mod_mask_unreached m i s Hi Hu).
  - destruct (String.eqb (Modification.modification_type m) "VALUE").
    + intros H. injection H as <-.
      destruct (update_masked_frame (fun x => rf (x * rf (Modification.value m))%Q) xs
                                    (Views.mod_mask sources year m)) as [H1 H2].
      split; [rewrite H1; exact Hlen|].
      intros i s Hi Hu. apply H2. apply (mod_mask_unreached m i s Hi Hu).
    + destruct (String.eqb (Modification.modification_type m) "EF").
      * destruct (existsb _ _); [discriminate|].
        intros H. injection H as <-.
        match goal with
        | |- context [map ?F (combine xs (combine ?efs ?mask))] =>
            destruct (combine_map_frame F xs efs mask) as [H1 H2]
        end.
        -- intros x ef. reflexivity.
        -- unfold Views.emission_factors. rewrite length_map. symmetry. exact Hlen.
        -- unfold Views.mod_mask. rewrite length_map. symmetry. exact Hlen.
        -- split; [rewrite H1; exact Hlen|].
           intros i s Hi Hu. apply H2. apply (mod_mask_unreached m i s Hi Hu).
      * intros H. injection H as <-. split; [exact Hlen|]. reflexivity.
Qed.

Lemma for_each_frame (modifications : list Modification.t) (xs ys : list Q) :
  length xs = length sources ->
  for_each (Views.apply_to_emissions rd rf sources year) modifications xs = Ok ys ->
  length ys = length sources
  /\ forall i s, nth_error sources i = Some s ->
                 (forall m, In m modifications -> Derived.unreached year m s) ->
                 nth_error ys i = nth_error xs i.
Proof.
  revert xs. induction modifications as [|m mods IH]; intros xs Hlen.
  - simpl. intros H. injection H as <-. split; [exact Hlen|]. reflexivity.
  - cbn [for_each].
    destruct (Views.apply_to_emissions rd rf sources year xs m) as [zs|e] eqn:E;
      cbn [bind]; [|discriminate].
    intros H. destruct (apply_to_emissions_frame xs zs m Hlen E) as [L1 F1].
    destruct (IH zs L1 H) as [L2 F2]. split; [exact L2|].
    intros i s Hi Hu. rewrite (F2 i s Hi).
    + apply (F1 i s Hi). apply Hu. left. reflexivity.
    + intros m' Hm'. apply Hu. right. exact Hm'.
Qed.

End Frame.

(** X21. Whenever the aggregator returns the arrays of a year, both
    have one entry per source of the report, the entry of a source that
    is not active in the year is 0 in both, and the modified emission
    of a source that none of the strategy's modifications refers to is
    its original emission: a modification changes the entry of its own
    source only. *)
Theorem modifications_change_their_own_source_only
        (rd rf : Q -> Q) (sources : list Source.t)
        (modifications : list Modification.t) (year : Z)
        (original modified : list Q) :
  Views.calculate_total_reduction_year rd rf sources modifications year
  = Ok (original, modified) ->
  length original = length sources
  /\ length modified = length sources
  /\ forall i s,
      nth_error sources i = Some s ->
      (Views.active s year = false ->
       nth_error original i = Some 0%Q /\ nth_error modified i = Some 0%Q)
      /\ ((forall m, In m modifications -> Modification.source m <> Source.id s) ->
          nth_error modified i = nth_error original i).
Proof.
  unfold Views.calculate_total_reduction_year.
  destruct (for_each _ _ _) as [ys|e] eqn:E; cbn [bind]; [|discriminate].
  intros H. injection H as <- <-.
  assert (Hlen : length (Views.original_emissions rf sources year) = length sources)
    by (unfold Views.original_emissions; apply length_map).
  destruct (for_each_frame rd rf sources year _ _ ys Hlen E) as [L F].
  split; [exact Hlen|]. split; [exact L|].
  intros i s Hi. split.
  - intros Ha.
    assert (Ho : nth_error (Views.original_emissions rf sources year) i = Some 0%Q).
    { unfold Views.original_emissions. rewrite nth_error_map, Hi. cbn.
      rewrite Ha. reflexivity. }
    split; [exact Ho|]. rewrite <- Ho. apply (F i s Hi).
    intros m _. left. exact Ha.
  - intros Hn. apply (F i s Hi). intros m Hm. right. apply Hn.
    apply filter_In in Hm. destruct Hm as [Hm _]. exact Hm.
Qed.

Lemma modifications_change_their_own_source_only_witness :
  exists original modified,
    Views.calculate_total_reduction_year
      Rounding.decimal28 Rounding.binary64
      [Scenario.source; Scenario.small_source] [Scenario.reduction] 2024
    = Ok (original, modified)
    /\ nth_error modified 1 = nth_error original 1.
Proof.
  destruct (Views.calculate_total_reduction_year
              Rounding.decimal28 Rounding.binary64
              [Scenario.source; Scenario.small_source] [Scenario.reduction] 2024)
    as [[original modified]|e] eqn:E; [|vm_compute in E; discriminate E].
  exists original, modified. split; [reflexivity|].
  destruct (modifications_change_their_own_source_only _ _ _ _ _ _ _ E)
    as [_ [_ H]].
  apply (H 1%nat Scenario.small_source eq_refl).
  intros m [<- | []]. simpl. lia.
Defined.

(** X22. A progressive modification that has started makes the
    aggregator fail for the whole year when its source belongs to the
    report but is not active in that year: [values[mod_mask][0]] raises
    an [IndexError] on the empty selection. *)
Theorem progressive_on_inactive_source_raises
        (rd rf : Q -> Q) (sources : list Source.t) (m : Modification.t)
        (later : list Modification.t) (year e : Z) :
  Modification.is_progressive m = true ->
  Modification.end_year m = Some e ->
  e - Modification.start_year m + 1 <> 0 ->
  Modification.start_year m <= year ->
  (exists s, In s sources /\ Modification.source m = Source.id s) ->
  (forall s, In s sources -> Modification.source m = Source.id s ->
             Views.active s year = false) ->
  Views.calculate_total_reduction_year rd rf sources (m :: later) year
  = Raise IndexError.
Proof.
  intros Hp He Hne Hs [s [Hin Hid]] Hinactive.
  unfold Views.calculate_total_reduction_year. cbn [filter].
  assert (Hex : existsb (fun s => Modification.source m =? Source.id s) sources = true).
  { apply existsb_exists. exists s. split; [exact Hin|]. apply Z.eqb_eq. exact Hid. }
  rewrite Hex. destruct (Z.leb_spec (Modification.start_year m) year); [|lia].
  cbn [andb for_each]. unfold Views.apply_to_emissions at 1. rewrite Hp.
  unfold Views.progressive_emission. rewrite He. unfold Views.np_truediv.
  destruct (Z.eqb_spec (e - Modification.start_year m + 1) 0); [contradiction|].
  cbn [bind]. unfold Views.first_masked at 1, Views.values, Views.mod_mask.
  rewrite masked_map, filter_none; [reflexivity|].
  apply Forall_forall. intros s' Hin'.
  destruct (Z.eqb_spec (Modification.source m) (Source.id s')) as [E|E].
  - rewrite (Hinactive s' Hin' E). reflexivity.
  - apply andb_false_r.
Qed.

Lemma progressive_on_inactive_source_raises_witness :
  Views.calculate_total_reduction_year
    Rounding.decimal28 Rounding.binary64 [Scenario.source]
    [Scenario.long_progressive 2029] 2029
  = Raise IndexError.
Proof.
  apply (progressive_on_inactive_source_raises
           Rounding.decimal28 Rounding.binary64 [Scenario.source]
           (Scenario.long_progressive 2029) [] 2029 2030).
  - reflexivity.
  - reflexivity.
  - simpl. lia.
  - simpl. lia.
  - exists Scenario.source. split; [left; reflexivity | reflexivity].
  - intros s [<- | []] _. reflexivity.
Defined.

(** X23. When every modification of the strategy starts after the year
    or refers to a source outside the report, the aggregator never
    raises and the modified emissions are the original ones: the
    reduction of the year is zero for every source. *)
Theorem no_applicable_modification_no_reduction
        (rd rf : Q -> Q) (sources : list Source.t)
        (modifications : list Modification.t) (year : Z) :
  (forall m, In m modifications ->
             year < Modification.start_year m
             \/ forall s, In s sources -> Modification.source m <> Source.id s) ->
  Views.calculate_total_reduction_year rd rf sources modifications year
  = Ok (Views.original_emissions rf sources year,
        Views.original_emissions rf sources year).
Proof.
  intros H. unfold Views.calculate_total_reduction_year.
  assert (Hf : filter (fun m =>
                         (Modification.start_year m <=? year)
                         && existsb (fun s => Modification.source m =? Source.id s)
                                    sources) modifications = []).
  { apply filter_none. apply Forall_forall. intros m Hm.
    destruct (H m Hm) as [Hlt | Hout].
    - destruct (Z.leb_spec (Modification.start_year m) year); [lia | reflexivity].
    - assert (Hex : existsb (fun s => Modification.source m =? Source.id s) sources
                    = false).
      { destruct (existsb _ sources) eqn:Ex; [|reflexivity].
        apply existsb_exists in Ex. destruct Ex as [s [Hin Heq]].
        apply Z.eqb_eq in Heq. exfalso. apply (Hout s Hin Heq). }
      rewrite Hex. apply andb_false_r. }
  rewrite Hf. reflexivity.
Qed.

Lemma no_applicable_modification_no_reduction_witness :
  Views.calculate_total_reduction_year
    Rounding.decimal28 Rounding.binary64 [Scenario.source] [Scenario.reduction] 2023
  = Ok (Views.original_emissions Rounding.binary64 [Scenario.source] 2023,
        Views.original_emissions Rounding.binary64 [Scenario.source] 2023).
Proof.
  apply no_applicable_modification_no_reduction.
  intros m [<- | []]. left. simpl. lia.
Defined.


